(** * Sampling, scale-up estimation and significance scripts: a shallow embedding

    The development follows three scripts of the repository:

    - [06_takeasampleoftypes.py]: the stratified sampler (module [Sampler]);
    - [07_frequenciesandestimates.py]: the frequency partitioner and the
      scale-up estimator inside [process_workbook] (module [Estimates]);
    - [08_calculatingsignificanceandeffect.py]: corpus sizes, the G2
      statistic and the log ratio (module [Significance]).

    Conventions of the embedding.

    - A worksheet is the list of its rows, row 1 (the header) first; a row is
      the list of its cell values.  openpyxl hands out every row padded with
      empty cells up to the width of the sheet, so a cell read past the end of
      a stored row is [CNone]; sheets are taken to be at least five columns
      wide, as the scripts index columns C and E directly.
    - Python integers are [Z].  Python floats are idealised: as rationals [Q]
      where the code only adds, multiplies, divides and compares, and as real
      numbers [R] where it takes logarithms.  Operations that raise in Python
      (division by zero, logarithm of a non-positive number, a sample larger
      than the population) return an error in the embedding.
    - Strings are byte strings, and [upper]/[lower] act on the ASCII letters. *)

From Stdlib Require Import List String Ascii Bool Arith ZArith Lia.
From Stdlib Require Import DecimalString Permutation Sorted.
From Stdlib Require Import QArith Qround.
From Stdlib Require Import Reals Lra.
Import ListNotations.

Local Open Scope Z_scope.

(* ================================================================== *)
(** * Python values found in spreadsheet cells *)
(* ================================================================== *)

Module Py.

(** The value of a cell: [None], a string or an integer. *)
Inductive cell : Type :=
| CNone
| CStr (s : string)
| CInt (z : Z).

Definition row : Type := list cell.

(** A worksheet, row 1 first. *)
Definition worksheet : Type := list row.

(** [row[i]] (0-based), padded with empty cells. *)
Definition col (i : nat) (r : row) : cell := nth i r CNone.

(** Python truthiness, as tested by [if value]. *)
Definition truthy (c : cell) : bool :=
  match c with
  | CNone => false
  | CStr s => negb (s =? "")%string
  | CInt z => negb (z =? 0)
  end.

(** [str(value)]. *)
Definition py_str (c : cell) : string :=
  match c with
  | CNone => "None"%string
  | CStr s => s
  | CInt z => NilZero.string_of_int (Z.to_int z)
  end.

Definition upper_ascii (a : ascii) : ascii :=
  let n := nat_of_ascii a in
  if ((97 <=? n) && (n <=? 122))%nat then ascii_of_nat (n - 32) else a.

Definition lower_ascii (a : ascii) : ascii :=
  let n := nat_of_ascii a in
  if ((65 <=? n) && (n <=? 90))%nat then ascii_of_nat (n + 32) else a.

Fixpoint map_string (f : ascii -> ascii) (s : string) : string :=
  match s with
  | EmptyString => EmptyString
  | String a s' => String (f a) (map_string f s')
  end.

(** [s.upper()] and [s.lower()]. *)
Definition upper : string -> string := map_string upper_ascii.
Definition lower : string -> string := map_string lower_ascii.

(** [sheet.iter_rows(min_row=2)]: the rows below the header. *)
Definition data_rows (ws : worksheet) : list row := tl ws.

(** [sheet.max_row]; an empty sheet reports 1. *)
Definition max_row (ws : worksheet) : Z := Z.max 1 (Z.of_nat (List.length ws)).

(** [[cell.value for cell in sheet[1]]]; on an empty sheet openpyxl yields
    the single empty cell A1. *)
Definition row1 (ws : worksheet) : row :=
  match ws with
  | [] => [CNone]
  | h :: _ => h
  end.

(** [sheet.delete_rows(idx)] with a 1-based row index: the rows below move
    up by one. *)
Definition delete_rows (idx : nat) (ws : worksheet) : worksheet :=
  firstn (idx - 1) ws ++ skipn idx ws.

(** [sorted(l, reverse=True)] on integers. *)
Fixpoint insert_desc (x : nat) (l : list nat) : list nat :=
  match l with
  | [] => [x]
  | y :: l' => if (y <=? x)%nat then x :: l else y :: insert_desc x l'
  end.

Definition sorted_reverse (l : list nat) : list nat :=
  fold_right insert_desc [] l.

(** The exceptions the scripts can meet. *)
Inductive error : Type :=
| ValueError (msg : string)
| ZeroDivisionError.

(** A computation that returns a value or raises. *)
Inductive outcome (A : Type) : Type :=
| Ok (a : A)
| Raise (e : error).

Arguments Ok {A} a.
Arguments Raise {A} e.

Definition bind {A B : Type} (m : outcome A) (k : A -> outcome B) : outcome B :=
  match m with
  | Ok a => k a
  | Raise e => Raise e
  end.

End Py.

Notation "x <- m ;; k" := (Py.bind m (fun x => k))
  (at level 61, m at next level, right associativity).

(* ================================================================== *)
(** * 07_frequenciesandestimates.py: partitioner and scale-up estimator *)
(* ================================================================== *)

Module Estimates.
Import Py.

(** [string_counts[k] += 1] on a [defaultdict(int)]; the dictionary keeps
    its keys in insertion order. *)
Fixpoint incr (k : string) (counts : list (string * Z)) : list (string * Z) :=
  match counts with
  | [] => [(k, 1)]
  | (k', n) :: rest =>
      if (k' =? k)%string then (k', n + 1) :: rest else (k', n) :: incr k rest
  end.

(** Lines 47-49: the body of the counting loop. *)
Definition count_step (counts : list (string * Z)) (r : row)
  : list (string * Z) :=
  if truthy (col 2 r) then incr (py_str (col 2 r)) counts else counts.

(** Lines 45-49: occurrences of each string in column C of the full sheet. *)
Definition string_counts (sheet : worksheet) : list (string * Z) :=
  fold_left count_step (data_rows sheet) [].

(** Line 52: the strings with at most 20 occurrences. *)
Definition low_freq_strings (sheet : worksheet) : list string :=
  map fst (filter (fun kc => snd kc <=? 20) (string_counts sheet)).

(** [s in low_freq_strings]. *)
Definition mem (s : string) (l : list string) : bool :=
  existsb (fun k => (k =? s)%string) l.

(** The test of line 78. *)
Definition is_low_freq (lfs : list string) (r : row) : bool :=
  truthy (col 2 r) && mem (py_str (col 2 r)) lfs.

(** The test of lines 17, 96 and 112: column E holds Y or O. *)
Definition is_metaphor (r : row) : bool :=
  truthy (col 4 r) &&
  ((upper (py_str (col 4 r)) =? "Y")%string
   || (upper (py_str (col 4 r)) =? "O")%string).

(** A counting loop [for row in ...: if is_metaphor(row): n += 1]. *)
Definition count_metaphors (rs : list row) : Z :=
  fold_left (fun n r => if is_metaphor r then n + 1 else n) rs 0.

(** Lines 13-19: the metaphors of the 'extra' worksheet, when present. *)
Definition extra_metaphor_count (extra : option worksheet) : Z :=
  match extra with
  | Some extra_sheet => count_metaphors (data_rows extra_sheet)
  | None => 0
  end.

(** State of the loop of lines 75-82. *)
Record scan_state : Type := mkScan {
  lf_sheet : worksheet;
  rows_to_remove : list nat;
  lf_rows_count : Z
}.

Definition scan_step (lfs : list string) (st : scan_state) (ir : nat * row)
  : scan_state :=
  let (i, r) := ir in
  if is_low_freq lfs r
  then mkScan (lf_sheet st ++ [r]) (rows_to_remove st ++ [i])
              (lf_rows_count st + 1)
  else st.

(** [enumerate(rows, start=i)]. *)
Fixpoint enumerate (i : nat) (rs : list row) : list (nat * row) :=
  match rs with
  | [] => []
  | r :: rs' => (i, r) :: enumerate (S i) rs'
  end.

Definition scan_sample (lfs : list string) (sample_sheet : worksheet)
  : scan_state :=
  fold_left (scan_step lfs)
    (enumerate 2 (data_rows sample_sheet))
    (mkScan [row1 sample_sheet] [] 0).

(** Lines 103-104: the rows are deleted from the highest index down. *)
Definition remove_rows (to_remove : list nat) (sample_sheet : worksheet)
  : worksheet :=
  fold_left (fun ws idx => delete_rows idx ws)
    (sorted_reverse to_remove) sample_sheet.

(** Lines 119-122.  The quotient of two integers is a float in Python. *)
Definition scale_up (sample_metaphor_count sample_remaining_rows row_count : Z)
  : Q :=
  if 0 <? sample_remaining_rows
  then (inject_Z sample_metaphor_count / inject_Z sample_remaining_rows)
       * inject_Z row_count
  else 0%Q.

(** The entry [results[sheet_name]] of a sheet that has a sample sheet. *)
Record sheet_result : Type := mkResult {
  total_rows : Z;
  res_low_freq_strings : list string;
  total_lf_rows : Z;
  total_hf_rows : Z;
  low_freq_metaphors : Z;
  sample_remaining_rows : Z;
  sample_metaphors : Z;
  hf_estimated_metaphors : Q;
  final_estimate_excluding_extra : Q
}.

(** What the body of the loop leaves behind: the result entry, the new
    low-frequency sheet and the sample sheet after the deletions. *)
Record processed : Type := mkProcessed {
  result : sheet_result;
  out_lf_sheet : worksheet;
  out_sample_sheet : worksheet
}.

(** Lines 37-126 of [process_workbook], for a regular sheet [sheet] whose
    sample sheet [sample_sheet] exists. *)
Definition process_sheet (sheet sample_sheet : worksheet) : processed :=
  let row_count := max_row sheet - 1 in
  let lfs := low_freq_strings sheet in
  let st := scan_sample lfs sample_sheet in
  let lf_metaphor_count := count_metaphors (data_rows (lf_sheet st)) in
  let sample_sheet' := remove_rows (rows_to_remove st) sample_sheet in
  let remaining := max_row sample_sheet' - 1 in
  let sample_metaphor_count := count_metaphors (data_rows sample_sheet') in
  let hf_estimated := scale_up sample_metaphor_count remaining row_count in
  mkProcessed
    (mkResult row_count lfs
       (lf_rows_count st) (row_count - lf_rows_count st)
       lf_metaphor_count remaining sample_metaphor_count
       hf_estimated (hf_estimated + inject_Z lf_metaphor_count)%Q)
    (lf_sheet st) sample_sheet'.

(** The identity of a row: the string of column C, when the cell is not
    empty. *)
Definition identity (r : row) : option string :=
  if truthy (col 2 r) then Some (py_str (col 2 r)) else None.

(** Number of data rows of a sheet that carry the identity [s]. *)
Definition has_identity (s : string) (r : row) : bool :=
  match identity r with
  | Some k => (k =? s)%string
  | None => false
  end.

Definition occurrences (s : string) (sheet : worksheet) : Z :=
  Z.of_nat (List.length (filter (has_identity s) (data_rows sheet))).

(** The sheet indices of the rows of [rs] that satisfy [p], the first row of
    [rs] being row [i] of the sheet. *)
Fixpoint marked (p : row -> bool) (i : nat) (rs : list row) : list nat :=
  match rs with
  | [] => []
  | r :: rs' => if p r then i :: marked p (S i) rs' else marked p (S i) rs'
  end.

(** The sample sheet without its low-frequency rows. *)
Definition reduced (lfs : list string) (sample_sheet : worksheet)
  : worksheet :=
  match sample_sheet with
  | [] => []
  | h :: rs => h :: filter (fun r => negb (is_low_freq lfs r)) rs
  end.

(** [counts[s]], when the key is present. *)
Fixpoint get (s : string) (counts : list (string * Z)) : option Z :=
  match counts with
  | [] => None
  | (k, n) :: rest => if (k =? s)%string then Some n else get s rest
  end.

End Estimates.

(* ================================================================== *)
(** * 06_takeasampleoftypes.py: the stratified sampler *)
(* ================================================================== *)

Module Sampler.
Import Py.

(** [rows_by_value[key].append(row)], creating the group on first use; the
    dictionary keeps its keys in insertion order. *)
Fixpoint add_row (key : string) (r : row) (groups : list (string * list row))
  : list (string * list row) :=
  match groups with
  | [] => [(key, [r])]
  | (k, rs) :: rest =>
      if (k =? key)%string then (k, rs ++ [r]) :: rest
      else (k, rs) :: add_row key r rest
  end.

(** Line 15: [str(row[2]).lower()]. *)
Definition group_key (r : row) : string := lower (py_str (col 2 r)).

(** Lines 13-18: rows grouped by column C, case-insensitively. *)
Definition rows_by_value (ws : worksheet) : list (string * list row) :=
  fold_left (fun groups r => add_row (group_key r) r groups)
    (data_rows ws) [].

(** The random source of the [random] module, made explicit: the [i]-th raw
    number drawn is [g i]; the second component of a sampling result is the
    number of draws made so far. *)
Definition rng : Type := nat -> nat.

Definition remove_nth {A : Type} (j : nat) (l : list A) : list A :=
  firstn j l ++ skipn (S j) l.

(** [k] draws without replacement: each draw picks a position of the pool
    of rows not yet chosen. *)
Fixpoint draw {A : Type} (g : rng) (pos : nat) (k : nat) (pool : list A)
  : list A * nat :=
  match k, pool with
  | S k', x :: _ =>
      let j := (g pos mod List.length pool)%nat in
      let (rest, pos') := draw g (S pos) k' (remove_nth j pool) in
      (nth j pool x :: rest, pos')
  | _, _ => ([], pos)
  end.

(** [random.sample(population, k)] of the Python library, after its
    documented behaviour: a list of [k] elements at distinct positions of
    the population, in the order of the draws; it raises when [k] is
    negative or exceeds the size of the population. *)
Definition random_sample {A : Type} (g : rng) (pos : nat)
    (population : list A) (k : Z) : outcome (list A * nat) :=
  if (k <? 0) || (Z.of_nat (List.length population) <? k)
  then Raise (ValueError "Sample larger than population or is negative")
  else Ok (draw g pos (Z.to_nat k) population).

(** [int(x)] on a float: truncation towards zero. *)
Definition py_int (x : Q) : Z := Z.quot (Qnum x) (Zpos (Qden x)).

(** Line 34: [max(1, int(len(rows) * fraction))].  The literal 0.2 is read
    as 1/5: for every row count a sheet can hold, the float product
    truncates to the same integer as the exact one. *)
Definition sample_size (fraction : Q) (n : nat) : Z :=
  Z.max 1 (py_int (inject_Z (Z.of_nat n) * fraction)).

(** Lines 31-35, with the two literals of the script as parameters. *)
Definition sample_group (fraction : Q) (min_group_size : Z)
    (g : rng) (pos : nat) (rows : list row) : outcome (list row * nat) :=
  if Z.of_nat (List.length rows) <? min_group_size
  then Ok (rows, pos)
  else random_sample g pos rows (sample_size fraction (List.length rows)).

(** Lines 30-40: every group is sampled and its rows appended to the new
    worksheet. *)
Fixpoint sampling_loop (fraction : Q) (min_group_size : Z) (g : rng)
    (pos : nat) (groups : list (string * list row)) (new_worksheet : worksheet)
  : outcome worksheet :=
  match groups with
  | [] => Ok new_worksheet
  | (_, rows) :: rest =>
      sp <- sample_group fraction min_group_size g pos rows ;;
      sampling_loop fraction min_group_size g (snd sp) rest
        (new_worksheet ++ fst sp)
  end.

(** The script from the grouping to the filled new worksheet, its two
    literals 0.2 and 20 written as arguments of the loop.  The script has
    no parameter: [take_sample] below is its only instance. *)
Definition take_sample_with (fraction : Q) (min_group_size : Z)
    (g : rng) (ws : worksheet) : outcome worksheet :=
  sampling_loop fraction min_group_size g 0 (rows_by_value ws) [row1 ws].

(** The script as written: groups below 20 rows are kept whole, the others
    are sampled at 0.2. *)
Definition take_sample : rng -> worksheet -> outcome worksheet :=
  take_sample_with (1 # 5) 20.

(** [out] is drawn from [pool] without replacement: some rows of the pool,
    each position used at most once. *)
Definition drawn_from {A : Type} (out pool : list A) : Prop :=
  exists rest, Permutation (out ++ rest) pool.

(** The rows [out] taken from the group [rows], as the contract words it:
    a group below the floor is kept whole, and from any other group
    max(1, floor(size * fraction)) rows are drawn without replacement. *)
Definition group_sampled (fraction : Q) (min_group_size : Z)
    (rows out : list row) : Prop :=
  let size := Z.of_nat (List.length rows) in
  (if size <? min_group_size
   then out = rows
   else Z.of_nat (List.length out)
        = Z.max 1 (Qfloor (inject_Z size * fraction)))
  /\ drawn_from out rows.

(** No key has two groups, and the rows of a group share its key. *)
Definition well_grouped (groups : list (string * list row)) : Prop :=
  NoDup (map fst groups) /\
  Forall (fun grp => Forall (fun r => group_key r = fst grp) (snd grp)) groups.

(** No group of the dictionary is empty. *)
Definition nonempty_groups (groups : list (string * list row)) : Prop :=
  Forall (fun grp => snd grp <> []) groups.

End Sampler.

(* ================================================================== *)
(** * 08_calculatingsignificanceandeffect.py: the statistics *)
(* ================================================================== *)

Module Significance.
Import Py.

(** A row of the input table. *)
Record group_row : Type := mkRow {
  Vehicle_group : string;
  SSC_Raw : Q;
  SSC_RF : Q;
  LEC_Raw : Q;
  LEC_RF : Q
}.

Definition is_totals (r : group_row) : bool :=
  (upper (Vehicle_group r) =? "TOTALS")%string.

(** [infer_corpus_sizes_from_totals], with the floats of the table read as
    rational numbers: the product raw * (1000 / rf) is exact here and
    rounded in the script. *)
Definition infer_corpus_sizes_from_totals (df : list group_row)
  : outcome (Q * Q) :=
  match filter is_totals df with
  | [] => Raise (ValueError "No TOTALS row found.")
  | totals :: _ =>
      if Qle_bool (SSC_RF totals) 0 || Qle_bool (LEC_RF totals) 0
      then Raise (ValueError
                    "TOTALS RF values must be > 0 to infer corpus size.")
      else Ok ((SSC_Raw totals * (1000 / SSC_RF totals))%Q,
               (LEC_Raw totals * (1000 / LEC_RF totals))%Q)
  end.

(** Lines 152-158 of [calculate_statistics]: the corpus sizes the
    statistics are computed with. *)
Definition corpus_sizes (df : list group_row) (ssc_words lec_words : option Q)
  : outcome (Q * Q) :=
  sizes <- match ssc_words, lec_words with
           | Some s, Some l => Ok (s, l)
           | _, _ => infer_corpus_sizes_from_totals df
           end ;;
  if Qle_bool (fst sizes) 0 || Qle_bool (snd sizes) 0
  then Raise (ValueError "Corpus sizes must be > 0.")
  else Ok sizes.

Local Open Scope R_scope.

Definition Rltb (x y : R) : bool := if Rlt_dec x y then true else false.
Definition Rleb (x y : R) : bool := if Rle_dec x y then true else false.

(** The floats of this module are read as real numbers: rounding, overflow
    and underflow are left out.  A float quotient of two positive numbers
    can underflow to 0.0, on which [math.log] and [math.log2] raise; here
    such a quotient is positive and the logarithm returns.  What the
    theorems below state about a returned value holds of the float code
    whenever it returns; a statement that rests on exact arithmetic says
    so. *)

(** [x / y] on floats. *)
Definition py_div (x y : R) : outcome R :=
  if Req_dec_T y 0 then Raise ZeroDivisionError else Ok (x / y).

(** The logarithm in base 2. *)
Definition log2 (x : R) : R := ln x / ln 2.

(** [math.log(x)] and [math.log2(x)]. *)
Definition math_log (x : R) : outcome R :=
  if Rltb 0 x then Ok (ln x) else Raise (ValueError "math domain error").

Definition math_log2 (x : R) : outcome R :=
  if Rltb 0 x then Ok (log2 x)
  else Raise (ValueError "math domain error").

(** One of the four statements
    [if e > 0 and o > 0: g2 += o * math.log(o / e)]. *)
Definition add_cell (o e g2 : R) : outcome R :=
  if Rltb 0 e && Rltb 0 o
  then q <- py_div o e ;; l <- math_log q ;; Ok (g2 + o * l)
  else Ok g2.

(** [g2_log_likelihood]. *)
Definition g2_log_likelihood (a b ssc_words lec_words : R) : outcome R :=
  let c := ssc_words - a in
  let d := lec_words - b in
  let total_words := ssc_words + lec_words in
  if Rleb total_words 0 then Ok 0
  else
    e1 <- py_div ((a + b) * ssc_words) total_words ;;
    e2 <- py_div ((a + b) * lec_words) total_words ;;
    e3 <- py_div ((c + d) * ssc_words) total_words ;;
    e4 <- py_div ((c + d) * lec_words) total_words ;;
    g2 <- add_cell a e1 0 ;;
    g2 <- add_cell b e2 g2 ;;
    g2 <- add_cell c e3 g2 ;;
    g2 <- add_cell d e4 g2 ;;
    Ok (2 * g2).

(** [log_ratio_log2]. *)
Definition log_ratio_log2 (ssc_rf lec_rf zero_floor : R) : outcome R :=
  let s := ssc_rf in
  let l := lec_rf in
  if Rltb 0 s && Rltb 0 l
  then q <- py_div s l ;; math_log2 q
  else if Rltb 0 s && Rleb l 0
  then q <- py_div s zero_floor ;; math_log2 q
  else if Rleb s 0 && Rltb 0 l
  then q <- py_div l zero_floor ;; v <- math_log2 q ;; Ok (- v)
  else Ok 0.

(** The default of the parameter [zero_floor], which every call passes. *)
Definition zero_floor : R := 1 / 100000.


End Significance.

(* ================================================================== *)
(** * Concrete workbooks used by the examples *)
(* ================================================================== *)

Module Inputs.
Import Py.

Definition header : row :=
  [CStr "No"; CStr "Context"; CStr "Type"; CStr "Tag"; CStr "Metaphor"]%string.

(** Occurrence number [n] of the word [word], coded [code] in column E. *)
Definition occurrence (word : string) (code : cell) (n : nat) : row :=
  [CInt (Z.of_nat n); CNone; CStr word; CNone; code].

(** A random source that always returns 0: every draw takes the first row
    still in the pool. *)
Definition first_rows : Sampler.rng := fun _ => 0%nat.

(** A sheet with one word type, "run", occurring exactly 20 times. *)
Definition sheet_run : worksheet :=
  header :: map (occurrence "run" (CStr "N")) (seq 1 20).

(** The 20% sample of [sheet_run]: four of the twenty rows. *)
Definition sample_run : worksheet :=
  header :: map (occurrence "run" (CStr "N")) (seq 1 4).

(** A sheet with 25 occurrences of "the", the first two coded as metaphors,
    and 2 occurrences of "cat". *)
Definition sheet_the_cat : worksheet :=
  header
    :: map (occurrence "the" (CStr "Y")) (seq 1 2)
    ++ map (occurrence "the" (CStr "N")) (seq 3 23)
    ++ map (occurrence "cat" (CStr "N")) (seq 26 2).

(** Its 20% sample: five rows of "the" and both rows of "cat". *)
Definition sample_the_cat : worksheet :=
  header
    :: map (occurrence "the" (CStr "Y")) (seq 1 2)
    ++ map (occurrence "the" (CStr "N")) (seq 3 3)
    ++ map (occurrence "cat" (CStr "N")) (seq 26 2).

(** A sample sheet with a row whose column C is empty. *)
Definition blank_row : row := [CInt 9; CNone; CNone; CNone; CStr "Y"]%string.

Definition sample_with_blank : worksheet :=
  header :: blank_row :: map (occurrence "cat" (CStr "N")) (seq 26 2).

(** Tables for the significance engine; the label of the totals row is in
    mixed case. *)
Definition table_without_totals : list Significance.group_row :=
  [Significance.mkRow "WAR" 12 (3 # 5) 4 (8 # 25)].

Definition table_with_totals : list Significance.group_row :=
  table_without_totals
    ++ [Significance.mkRow "Totals" 50 (5 # 2) 10 (4 # 5)].

Definition table_with_empty_totals : list Significance.group_row :=
  table_without_totals
    ++ [Significance.mkRow "TOTALS" 0 (5 # 2) 10 (4 # 5)].

End Inputs.

(* ================================================================== *)
(** * More of Python: other exceptions, tests on strings *)
(* ================================================================== *)

Module PyMore.
Import Py.

(** Exceptions beyond those of [Py.error]. *)
Inductive exn : Type :=
| Lib (e : error)
| KeyError (key : string)
| AttributeError
| TypeError.

Inductive res (A : Type) : Type :=
| Return (a : A)
| Throw (e : exn).

Arguments Return {A} a.
Arguments Throw {A} e.

Definition rbind {A B : Type} (m : res A) (k : A -> res B) : res B :=
  match m with
  | Return a => k a
  | Throw e => Throw e
  end.

Definition lift {A : Type} (m : outcome A) : res A :=
  match m with
  | Ok a => Return a
  | Raise e => Throw (Lib e)
  end.

(** [s.endswith(suffix)]. *)
Fixpoint endswith (s suffix : string) : bool :=
  (s =? suffix)%string
  || match s with
     | EmptyString => false
     | String _ s' => endswith s' suffix
     end.

(** [sub in s]. *)
Fixpoint contains (sub s : string) : bool :=
  prefix sub s
  || match s with
     | EmptyString => false
     | String _ s' => contains sub s'
     end.

(** [s.replace(old, new)] for a non-empty [old]: the occurrences of [old]
    are replaced from left to right, without overlap.  [skip] counts the
    characters of an occurrence still to pass over. *)
Fixpoint replace_from (old new : string) (skip : nat) (s : string) : string :=
  match s with
  | EmptyString => EmptyString
  | String c s' =>
      match skip with
      | S k => replace_from old new k s'
      | O =>
          if prefix old s
          then new ++ replace_from old new (String.length old - 1) s'
          else String c (replace_from old new 0 s')
      end
  end.

Definition replace (old new s : string) : string := replace_from old new 0 s.

(** The first [k] characters of [s] hold no dot. *)
Fixpoint dotless (k : nat) (s : string) : Prop :=
  match k, s with
  | O, _ => True
  | S k', String c s' => c <> "."%char /\ dotless k' s'
  | S _, EmptyString => False
  end.

End PyMore.

Notation "x <~ m ;; k" := (PyMore.rbind m (fun x => k))
  (at level 61, m at next level, right associativity).

(* ================================================================== *)
(** * 07_frequenciesandestimates.py: the workbook, the reports, the
      directory *)
(* ================================================================== *)

Module Workbook.
Import Py PyMore Estimates.

(** A workbook: its sheets by title, in the order of [sheetnames]. *)
Definition workbook : Type := list (string * worksheet).

Definition sheetnames (wb : workbook) : list string := map fst wb.

(** [name in workbook.sheetnames]. *)
Definition has_sheet (name : string) (wb : workbook) : bool :=
  existsb (fun n => (n =? name)%string) (sheetnames wb).

(** [workbook[name]]. *)
Fixpoint get_sheet (name : string) (wb : workbook) : option worksheet :=
  match wb with
  | [] => None
  | (n, ws) :: rest => if (n =? name)%string then Some ws
                       else get_sheet name rest
  end.

(** [del workbook[name]]. *)
Fixpoint del_sheet (name : string) (wb : workbook) : workbook :=
  match wb with
  | [] => []
  | (n, ws) :: rest => if (n =? name)%string then rest
                       else (n, ws) :: del_sheet name rest
  end.

(** The sheet [name] after it was modified in place. *)
Fixpoint set_sheet (name : string) (ws' : worksheet) (wb : workbook)
  : workbook :=
  match wb with
  | [] => []
  | (n, ws) :: rest => if (n =? name)%string then (n, ws') :: rest
                       else (n, ws) :: set_sheet name ws' rest
  end.

(** [workbook.create_sheet(name)], filled with the rows [ws]: the new
    sheet comes last. *)
Definition create_sheet (name : string) (ws : worksheet) (wb : workbook)
  : workbook :=
  wb ++ [(name, ws)].

(** Lines 24-30: the condition of the list comprehension. *)
Definition is_regular (name : string) : bool :=
  negb (endswith name "_20%")
  && negb (name =? "Coding List")%string
  && negb (name =? "Coding Lists")%string
  && negb (name =? "Coding_lists")%string
  && negb (name =? "extra")%string
  && negb (endswith name "_lf").

Definition regular_sheets (wb : workbook) : list string :=
  filter is_regular (sheetnames wb).

(** The dictionary stored for a sheet: two keys for a sheet without a
    sample sheet, all of them otherwise. *)
Inductive sheet_data : Type :=
| Unsampled (row_count : Z) (low_freq : list string)
| Sampled (r : sheet_result).

(** A value of the dictionary [results]: a number or the dictionary of a
    sheet. *)
Inductive value : Type :=
| VNum (q : Q)
| VSheet (d : sheet_data).

Definition results : Type := list (string * value).

(** [d[k] = v]. *)
Fixpoint set_item (k : string) (v : value) (d : results) : results :=
  match d with
  | [] => [(k, v)]
  | (k', v') :: rest => if (k' =? k)%string then (k', v) :: rest
                        else (k', v') :: set_item k v rest
  end.

(** [d.get(k)]. *)
Fixpoint get_item (k : string) (d : results) : option value :=
  match d with
  | [] => None
  | (k', v) :: rest => if (k' =? k)%string then Some v else get_item k rest
  end.

(** [sheet_data.get(key, 0)] for the keys of a sheet. *)
Definition get_total_rows (d : sheet_data) : Z :=
  match d with
  | Unsampled row_count _ => row_count
  | Sampled r => total_rows r
  end.

Definition get_total_hf_rows (d : sheet_data) : Z :=
  match d with Unsampled _ _ => 0 | Sampled r => total_hf_rows r end.

Definition get_total_lf_rows (d : sheet_data) : Z :=
  match d with Unsampled _ _ => 0 | Sampled r => total_lf_rows r end.

Definition get_sample_remaining_rows (d : sheet_data) : Z :=
  match d with Unsampled _ _ => 0 | Sampled r => sample_remaining_rows r end.

Definition get_low_freq_metaphors (d : sheet_data) : Z :=
  match d with Unsampled _ _ => 0 | Sampled r => low_freq_metaphors r end.

Definition get_sample_metaphors (d : sheet_data) : Z :=
  match d with Unsampled _ _ => 0 | Sampled r => sample_metaphors r end.

(** [sheet_data.get('hf_estimated_metaphors', default)] and
    [sheet_data.get('final_estimate_excluding_extra', default)]. *)
Definition get_hf_estimated (d : sheet_data) (default : Q) : Q :=
  match d with
  | Unsampled _ _ => default
  | Sampled r => hf_estimated_metaphors r
  end.

Definition get_final_estimate (d : sheet_data) (default : Q) : Q :=
  match d with
  | Unsampled _ _ => default
  | Sampled r => final_estimate_excluding_extra r
  end.

(** Lines 33-126: the body of the loop over the regular sheets. *)
Definition process_regular (st : workbook * results) (sheet_name : string)
  : res (workbook * results) :=
  let (wb, results) := st in
  if contains "coding list" (lower sheet_name) then Return st
  else
    match get_sheet sheet_name wb with
    | None => Throw (KeyError sheet_name)
    | Some sheet =>
        let row_count := max_row sheet - 1 in
        let low_freq := low_freq_strings sheet in
        let sample_sheet_name := (sheet_name ++ "_20%")%string in
        match (if has_sheet sample_sheet_name wb
               then get_sheet sample_sheet_name wb else None) with
        | None =>
            Return (wb, set_item sheet_name
                          (VSheet (Unsampled row_count low_freq)) results)
        | Some sample_sheet =>
            let lf_sheet_name := (sheet_name ++ "_lf")%string in
            let wb1 := if has_sheet lf_sheet_name wb
                       then del_sheet lf_sheet_name wb else wb in
            let p := process_sheet sheet sample_sheet in
            let wb2 := create_sheet lf_sheet_name (out_lf_sheet p) wb1 in
            let wb3 := set_sheet sample_sheet_name (out_sample_sheet p) wb2 in
            Return (wb3, set_item sheet_name
                           (VSheet (Sampled (result p))) results)
        end
    end.

Fixpoint process_regulars (st : workbook * results) (names : list string)
  : res (workbook * results) :=
  match names with
  | [] => Return st
  | sheet_name :: rest =>
      st' <~ process_regular st sheet_name ;;
      process_regulars st' rest
  end.

(** The two sums of lines 135-144, over the items that are dictionaries
    and not stored under 'extra_metaphors'. *)
Definition counted (kv : string * value) : option sheet_data :=
  match kv with
  | (k, VSheet d) => if (k =? "extra_metaphors")%string then None else Some d
  | (_, VNum _) => None
  end.

Definition sum_over (f : sheet_data -> Q) (d : results) : Q :=
  fold_left
    (fun acc kv => match counted kv with
                   | Some sd => (acc + f sd)%Q
                   | None => acc
                   end)
    d 0%Q.

(** [process_workbook]: the results and the workbook that is saved. *)
Definition process_workbook (wb : workbook) : res (results * workbook) :=
  let extra := extra_metaphor_count
                 (if has_sheet "extra" wb then get_sheet "extra" wb
                  else None) in
  let results0 := [("extra_metaphors"%string, VNum (inject_Z extra))] in
  st <~ process_regulars (wb, results0) (regular_sheets wb) ;;
  let (wb', results1) := st in
  let total_hf_estimated :=
    sum_over (fun d => get_hf_estimated d 0) results1 in
  let total_lf_metaphors :=
    sum_over (fun d => inject_Z (get_low_freq_metaphors d)) results1 in
  extra_value <~ match get_item "extra_metaphors" results1 with
                 | Some (VNum q) => Return q
                 | Some (VSheet _) => Throw TypeError
                 | None => Return 0%Q
                 end ;;
  let final_estimate_total :=
    (total_hf_estimated + total_lf_metaphors + extra_value)%Q in
  Return
    (set_item "final_estimate_total" (VNum final_estimate_total)
       (set_item "hf_estimated_metaphors_total" (VNum total_hf_estimated)
          results1),
     wb').

(** A row of the two summary tables. *)
Record report_row : Type := mkReport {
  r_sheet_name : string;
  r_total_rows : Z;
  r_total_hf_rows : Z;
  r_total_lf_rows : Z;
  r_sample_rows : Z;
  r_low_freq_metaphors : Z;
  r_extra_metaphors : Q;
  r_sample_metaphors : Z;
  r_hf_metaphors : Q;
  r_final_estimate : Q
}.

(** The condition of lines 203 and 267. *)
Definition is_reported (sheet_name : string) : bool :=
  negb (sheet_name =? "extra_metaphors")%string
  && negb (lower sheet_name =? "coding list")%string
  && negb (lower sheet_name =? "coding lists")%string.

(** Lines 205-216 and 269-281: the row of a sheet.  [.get] exists on a
    dictionary only. *)
Definition sheet_row (sheet_name : string) (v : value) : res report_row :=
  match v with
  | VNum _ => Throw AttributeError
  | VSheet d =>
      Return
        (mkReport sheet_name
           (get_total_rows d) (get_total_hf_rows d) (get_total_lf_rows d)
           (get_sample_remaining_rows d) (get_low_freq_metaphors d) 0
           (get_sample_metaphors d)
           (get_hf_estimated d (inject_Z (get_sample_metaphors d * 5)))
           (get_final_estimate d
              (inject_Z (get_sample_metaphors d * 5
                         + get_low_freq_metaphors d))))
  end.

(** Lines 201-226: the rows of the sheets with the running totals, which
    are kept in a row named TOTAL. *)
Definition tabular_step (st : list report_row * report_row)
    (kv : string * value) : res (list report_row * report_row) :=
  let (table_data, t) := st in
  let (sheet_name, v) := kv in
  if is_reported sheet_name
  then
    row <~ sheet_row sheet_name v ;;
    Return
      (table_data ++ [row],
       mkReport (r_sheet_name t)
         (r_total_rows t + r_total_rows row)
         (r_total_hf_rows t + r_total_hf_rows row)
         (r_total_lf_rows t + r_total_lf_rows row)
         (r_sample_rows t + r_sample_rows row)
         (r_low_freq_metaphors t + r_low_freq_metaphors row)
         (r_extra_metaphors t)
         (r_sample_metaphors t + r_sample_metaphors row)
         (r_hf_metaphors t + r_hf_metaphors row)%Q
         (r_final_estimate t))
  else Return st.

Fixpoint tabular_loop (st : list report_row * report_row) (d : results)
  : res (list report_row * report_row) :=
  match d with
  | [] => Return st
  | kv :: rest => st' <~ tabular_step st kv ;; tabular_loop st' rest
  end.

(** [data.get('extra_metaphors', 0)], used in a sum. *)
Definition extra_of (data : results) : res Q :=
  match get_item "extra_metaphors" data with
  | Some (VNum q) => Return q
  | Some (VSheet _) => Throw TypeError
  | None => Return 0%Q
  end.

(** [print_tabular_results], for the results of one workbook: the table
    that is printed and written to the summary file. *)
Definition tabular_rows (data : results) : res (list report_row) :=
  st <~ tabular_loop ([], mkReport "TOTAL" 0 0 0 0 0 0 0 0 0) data ;;
  let (table_data, t) := st in
  extra <~ extra_of data ;;
  Return
    (table_data
     ++ [mkReport "TOTAL" (r_total_rows t) (r_total_hf_rows t)
           (r_total_lf_rows t) (r_sample_rows t) (r_low_freq_metaphors t)
           extra (r_sample_metaphors t) (r_hf_metaphors t)
           (r_hf_metaphors t + inject_Z (r_low_freq_metaphors t) + extra)%Q]).

(** Lines 265-282 of [save_consolidated_results]: the rows of the sheets,
    without the column of the file name. *)
Fixpoint consolidated_loop (table : list report_row) (d : results)
  : res (list report_row) :=
  match d with
  | [] => Return table
  | (sheet_name, v) :: rest =>
      if is_reported sheet_name
      then row <~ sheet_row sheet_name v ;;
           consolidated_loop (table ++ [row]) rest
      else consolidated_loop table rest
  end.

(** One of the sums of lines 285-296; the generator calls [.get] on every
    item that is reported. *)
Fixpoint consolidated_sum (f : sheet_data -> Z) (d : results) : res Z :=
  match d with
  | [] => Return 0
  | (sheet_name, v) :: rest =>
      if is_reported sheet_name
      then match v with
           | VNum _ => Throw AttributeError
           | VSheet sd => n <~ consolidated_sum f rest ;; Return (f sd + n)
           end
      else consolidated_sum f rest
  end.

(** [save_consolidated_results], for the results of one workbook. *)
Definition consolidated_rows (data : results) : res (list report_row) :=
  table <~ consolidated_loop [] data ;;
  total_rows <~ consolidated_sum get_total_rows data ;;
  total_hf_rows <~ consolidated_sum get_total_hf_rows data ;;
  total_lf_rows <~ consolidated_sum get_total_lf_rows data ;;
  total_lf_metaphors <~ consolidated_sum get_low_freq_metaphors data ;;
  total_sample_rows <~ consolidated_sum get_sample_remaining_rows data ;;
  total_sample_metaphors <~ consolidated_sum get_sample_metaphors data ;;
  extra <~ extra_of data ;;
  Return
    (table
     ++ [mkReport "TOTAL" total_rows total_hf_rows total_lf_rows
           total_sample_rows total_lf_metaphors extra total_sample_metaphors
           (inject_Z (total_sample_metaphors * 5))
           (inject_Z (total_sample_metaphors * 5 + total_lf_metaphors)
            + extra)%Q]).

(** Line 164 of [process_directory]: the files that are processed. *)
Definition is_input_file (file : string) : bool :=
  endswith file ".xlsx" && negb (endswith file "_processed.xlsx").

(** Line 152: the path the processed workbook is saved to. *)
Definition output_path (workbook_path : string) : string :=
  replace ".xlsx" "_processed.xlsx" workbook_path.




(** An item that is a number, under a key that the reports do not leave
    out. *)
Definition has_reported_number (d : results) : Prop :=
  exists k q, In (k, VNum q) d /\ is_reported k = true.

End Workbook.

(* ================================================================== *)
(** * 08_calculatingsignificanceandeffect.py: the table of statistics *)
(* ================================================================== *)

Module Statistics.
Import Py PyMore Significance.
Local Open Scope R_scope.

(** [p_to_marker]. *)
Definition p_to_marker (p : R) : string :=
  if Rltb p (1 / 10000) then "****"%string
  else if Rltb p (1 / 1000) then "***"%string
  else if Rltb p (5 / 100) then "*"%string
  else "ns"%string.

(** The dictionary appended to [results] for a row of the table. *)
Record stat_dict : Type := mkStat {
  st_Vehicle_group : string;
  st_SSC_Raw : R;
  st_SSC_RF : R;
  st_LEC_Raw : R;
  st_LEC_RF : R;
  Log_Likelihood : R;
  p_value : R;
  Significant : bool;
  Sig_Marker : string;
  Log_Ratio : R;
  Interpretation : string
}.

(** A row of the returned table: the dictionary, with its two statistics
    rounded, and the formatted p-value. *)
Record table_row : Type := mkTableRow {
  columns : stat_dict;
  p_value_formatted : string
}.

(** The multiplication sign of the interpretation strings, in UTF-8. *)
Definition times_sign : string :=
  String (ascii_of_nat 195) (String (ascii_of_nat 151) EmptyString).

(** What holds of the dictionary of every row. *)
Definition sound (d : stat_dict) : Prop :=
  p_value d <= 9999 / 10000 /\
  Significant d = Rltb (p_value d) (5 / 100) /\
  Sig_Marker d = p_to_marker (p_value d).

Section Libraries.

(** What the script takes from its libraries: the survival function of
    the chi-square distribution with one degree of freedom
    ([chi2.sf(x, 1)]), the formatting of a float with one and with four
    decimals, and the rounding of a column to two decimals. *)
Variable chi2_sf : R -> R.
Variable format_1f : R -> string.
Variable format_4f : R -> string.
Variable round_2 : R -> R.

(** Lines 178-183. *)
Definition interpretation (lr : R) : string :=
  if Rltb 0 lr
  then ("SSC uses " ++ format_1f (Rpower 2 lr) ++ times_sign ++ " more")%string
  else if Rltb lr 0
  then ("LEC uses " ++ format_1f (Rpower 2 (Rabs lr)) ++ times_sign
        ++ " more")%string
  else "No difference"%string.

(** Line 212. *)
Definition interpretation_total (lr_total : R) : string :=
  if Rleb 0 lr_total
  then ("SSC uses " ++ format_1f (Rpower 2 lr_total) ++ times_sign
        ++ " more overall")%string
  else ("LEC uses " ++ format_1f (Rpower 2 (Rabs lr_total)) ++ times_sign
        ++ " more overall")%string.

(** Lines 167-199 and 205-228: the statistics of one row, with the label
    and the interpretation the caller chooses. *)
Definition row_stats (ssc_words lec_words : R) (label : string)
    (interp : R -> string) (row : group_row) : outcome stat_dict :=
  let a := Q2R (SSC_Raw row) in
  let b := Q2R (LEC_Raw row) in
  let ssc_rf := Q2R (SSC_RF row) in
  let lec_rf := Q2R (LEC_RF row) in
  g2 <- g2_log_likelihood a b ssc_words lec_words ;;
  let p := Rmin (chi2_sf g2) (9999 / 10000) in
  lr <- log_ratio_log2 ssc_rf lec_rf (1 / 100000) ;;
  Ok (mkStat label a ssc_rf b lec_rf g2 p (Rltb p (5 / 100))
        (p_to_marker p) lr (interp lr)).

(** Lines 162-199: the loop over the rows that are not TOTALS. *)
Fixpoint group_loop (ssc_words lec_words : R) (df : list group_row)
  : outcome (list stat_dict) :=
  match df with
  | [] => Ok []
  | row :: rest =>
      if is_totals row then group_loop ssc_words lec_words rest
      else
        d <- row_stats ssc_words lec_words (Vehicle_group row)
               interpretation row ;;
        ds <- group_loop ssc_words lec_words rest ;;
        Ok (d :: ds)
  end.

(** Lines 201-228: the first TOTALS row, when there is one. *)
Definition totals_stats (ssc_words lec_words : R) (df : list group_row)
  : outcome (list stat_dict) :=
  match filter is_totals df with
  | [] => Ok []
  | t :: _ =>
      d <- row_stats ssc_words lec_words "TOTALS" interpretation_total t ;;
      Ok [d]
  end.

(** Lines 233-235. *)
Definition finish (d : stat_dict) : table_row :=
  mkTableRow
    (mkStat (st_Vehicle_group d) (st_SSC_Raw d) (st_SSC_RF d)
       (st_LEC_Raw d) (st_LEC_RF d) (round_2 (Log_Likelihood d))
       (p_value d) (Significant d) (Sig_Marker d) (round_2 (Log_Ratio d))
       (Interpretation d))
    (if Rltb (p_value d) (1 / 10000) then "<0.0001"%string
     else format_4f (p_value d)).

(** [calculate_statistics].  A table without any row has no column either,
    and reading its column p_value fails. *)
Definition calculate_statistics (df : list group_row)
    (ssc_words lec_words : option Q) : res (list table_row) :=
  sizes <~ lift (corpus_sizes df ssc_words lec_words) ;;
  let ssc := Q2R (fst sizes) in
  let lec := Q2R (snd sizes) in
  groups <~ lift (group_loop ssc lec df) ;;
  totals <~ lift (totals_stats ssc lec df) ;;
  match groups ++ totals with
  | [] => Throw (KeyError "p_value")
  | results => Return (map finish results)
  end.

End Libraries.

End Statistics.

(* ================================================================== *)
(** * The sampler followed by the partitioner *)
(* ================================================================== *)

Module Pipeline.
Import Py Sampler.

(** The rows that fall in the group of the string [s]. *)
Definition same_key (s : string) (r : row) : bool :=
  (group_key r =? lower s)%string.

End Pipeline.

(* ================================================================== *)
(** * Concrete workbooks and tables used by the further examples *)
(* ================================================================== *)

Module Scenarios.
Import Py Inputs Workbook.

(** A workbook with a regular sheet, its sample, a sheet without sample,
    an extra sheet and a coding list. *)
Definition book : workbook :=
  [("S7.1+", sheet_the_cat); ("S7.1+_20%", sample_the_cat);
   ("A1", sheet_run); ("Coding List", [header]);
   ("extra", header :: [occurrence "dog" (CStr "O") 1])]%string.

End Scenarios.

(* ================================================================== *)
(** * Properties of the partitioner and the estimator *)
(* ================================================================== *)

Module EstimatesProofs.
Import Py Estimates Inputs.

(** ** Sorting an ascending list of indices in reverse *)

Lemma insert_desc_smallest (x : nat) (l : list nat) :
  Forall (fun y => (x < y)%nat) l -> insert_desc x l = l ++ [x].
Proof.
  induction 1 as [|y l Hy _ IH]; simpl; [reflexivity|].
  destruct (Nat.leb_spec y x); [lia|].
  now rewrite IH.
Qed.

Lemma sorted_reverse_ascending (l : list nat) :
  StronglySorted lt l -> sorted_reverse l = rev l.
Proof.
  unfold sorted_reverse.
  induction 1 as [|x l _ IH Hx]; simpl; [reflexivity|].
  rewrite IH. apply insert_desc_smallest.
  rewrite Forall_forall in *. intros y Hy. apply Hx. now apply in_rev.
Qed.

Lemma marked_lower_bound (p : row -> bool) (rs : list row) :
  forall i, Forall (fun j => (i <= j)%nat) (marked p i rs).
Proof.
  induction rs as [|r rs IH]; intros i; simpl; [constructor|].
  assert (H : Forall (fun j => (i <= j)%nat) (marked p (S i) rs)).
  { eapply Forall_impl; [|apply IH]. simpl. intros; lia. }
  destruct (p r); [constructor; [lia|]|]; exact H.
Qed.

Lemma marked_ascending (p : row -> bool) (rs : list row) :
  forall i, StronglySorted lt (marked p i rs).
Proof.
  induction rs as [|r rs IH]; intros i; simpl; [constructor|].
  destruct (p r); [|apply IH].
  constructor; [apply IH|].
  eapply Forall_impl; [|apply marked_lower_bound]. simpl. intros; lia.
Qed.

(** ** The scanning loop *)

Lemma scan_fold (lfs : list string) (rs : list row) :
  forall i st,
    fold_left (scan_step lfs) (enumerate i rs) st =
    mkScan (lf_sheet st ++ filter (is_low_freq lfs) rs)
           (rows_to_remove st ++ marked (is_low_freq lfs) i rs)
           (lf_rows_count st
            + Z.of_nat (List.length (filter (is_low_freq lfs) rs))).
Proof.
  induction rs as [|r rs IH]; intros i st; simpl.
  - rewrite !app_nil_r, Z.add_0_r. now destruct st.
  - rewrite IH. unfold scan_step.
    destruct (is_low_freq lfs r); simpl.
    + rewrite <- !app_assoc. simpl. f_equal. lia.
    + reflexivity.
Qed.

Lemma scan_sample_spec (lfs : list string) (sample_sheet : worksheet) :
  scan_sample lfs sample_sheet =
  mkScan (row1 sample_sheet
            :: filter (is_low_freq lfs) (data_rows sample_sheet))
         (marked (is_low_freq lfs) 2 (data_rows sample_sheet))
         (Z.of_nat
            (List.length (filter (is_low_freq lfs) (data_rows sample_sheet)))).
Proof. unfold scan_sample. now rewrite scan_fold. Qed.

(** ** Deleting the marked rows *)

Lemma delete_rows_at (pre : list row) (r : row) (post : list row) :
  delete_rows (S (List.length pre)) (pre ++ r :: post) = pre ++ post.
Proof.
  unfold delete_rows.
  induction pre as [|x pre IH]; [reflexivity|].
  cbn [List.length app]. rewrite Nat.sub_succ, Nat.sub_0_r in *.
  change (x :: (firstn (List.length pre) (pre ++ r :: post)
                ++ skipn (S (List.length pre)) (pre ++ r :: post))
          = x :: pre ++ post).
  now rewrite IH.
Qed.

Lemma delete_marked (p : row -> bool) (rs : list row) :
  forall pre,
    fold_right delete_rows (pre ++ rs) (marked p (S (List.length pre)) rs) =
    pre ++ filter (fun r => negb (p r)) rs.
Proof.
  induction rs as [|r rs IH]; intros pre; simpl; [reflexivity|].
  assert (E : fold_right delete_rows (pre ++ r :: rs)
                (marked p (S (S (List.length pre))) rs) =
              pre ++ r :: filter (fun r0 => negb (p r0)) rs).
  { specialize (IH (pre ++ [r])).
    rewrite <- !app_assoc in IH. simpl in IH.
    rewrite length_app in IH. simpl in IH.
    rewrite Nat.add_1_r in IH. exact IH. }
  destruct (p r); simpl.
  - rewrite E. apply delete_rows_at.
  - exact E.
Qed.

Lemma remove_rows_marked (p : row -> bool) (h : row) (rs : list row) :
  remove_rows (marked p 2 rs) (h :: rs) =
  h :: filter (fun r => negb (p r)) rs.
Proof.
  unfold remove_rows.
  rewrite sorted_reverse_ascending by apply marked_ascending.
  rewrite <- fold_left_rev_right, rev_involutive.
  exact (delete_marked p rs [h]).
Qed.


(** ** What the loop body leaves behind *)

Lemma remove_rows_sample (lfs : list string) (sample_sheet : worksheet) :
  remove_rows (marked (is_low_freq lfs) 2 (data_rows sample_sheet))
    sample_sheet = reduced lfs sample_sheet.
Proof.
  destruct sample_sheet as [|h rs]; [reflexivity|].
  apply remove_rows_marked.
Qed.

Lemma out_sample_sheet_spec (sheet sample_sheet : worksheet) :
  out_sample_sheet (process_sheet sheet sample_sheet) =
  reduced (low_freq_strings sheet) sample_sheet.
Proof.
  unfold process_sheet. cbn [out_sample_sheet].
  rewrite scan_sample_spec. cbn [rows_to_remove].
  apply remove_rows_sample.
Qed.

Lemma out_lf_sheet_spec (sheet sample_sheet : worksheet) :
  out_lf_sheet (process_sheet sheet sample_sheet) =
  row1 sample_sheet
    :: filter (is_low_freq (low_freq_strings sheet)) (data_rows sample_sheet).
Proof.
  unfold process_sheet. cbn [out_lf_sheet].
  now rewrite scan_sample_spec.
Qed.

Lemma data_rows_reduced (lfs : list string) (sample_sheet : worksheet) :
  data_rows (reduced lfs sample_sheet) =
  filter (fun r => negb (is_low_freq lfs r)) (data_rows sample_sheet).
Proof. now destruct sample_sheet. Qed.

Lemma total_lf_rows_spec (sheet sample_sheet : worksheet) :
  total_lf_rows (result (process_sheet sheet sample_sheet)) =
  Z.of_nat (List.length (filter (is_low_freq (low_freq_strings sheet))
                           (data_rows sample_sheet))).
Proof.
  unfold process_sheet. cbn [result total_lf_rows].
  now rewrite scan_sample_spec.
Qed.

Lemma max_row_data_rows (ws : worksheet) :
  max_row ws - 1 = Z.of_nat (List.length (data_rows ws)).
Proof.
  unfold max_row, data_rows. destruct ws as [|h rs]; simpl List.length; lia.
Qed.

Lemma filter_split_length {A : Type} (p : A -> bool) (l : list A) :
  (List.length (filter p l)
   + List.length (filter (fun x => negb (p x)) l))%nat = List.length l.
Proof.
  induction l as [|x l IH]; simpl; [reflexivity|].
  destruct (p x); simpl; lia.
Qed.

(** ** Counting loops *)

Lemma count_metaphors_from (rs : list row) :
  forall n,
    fold_left (fun n r => if is_metaphor r then n + 1 else n) rs n =
    n + Z.of_nat (List.length (filter is_metaphor rs)).
Proof.
  induction rs as [|r rs IH]; intros n; simpl; [lia|].
  rewrite IH. destruct (is_metaphor r); simpl List.length; lia.
Qed.

Lemma count_metaphors_spec (rs : list row) :
  count_metaphors rs = Z.of_nat (List.length (filter is_metaphor rs)).
Proof. unfold count_metaphors. now rewrite count_metaphors_from. Qed.

(** ** The dictionary of occurrence counts *)

Lemma get_incr (s k : string) (counts : list (string * Z)) :
  get s (incr k counts) =
  if (k =? s)%string
  then Some (match get s counts with Some n => n + 1 | None => 1 end)
  else get s counts.
Proof.
  induction counts as [|[k' n] rest IH]; simpl.
  - destruct (String.eqb_spec k s); reflexivity.
  - destruct (String.eqb_spec k' k) as [->|Hk]; simpl.
    + destruct (String.eqb_spec k s); reflexivity.
    + rewrite IH. destruct (String.eqb_spec k' s) as [->|Hs];
        [|reflexivity].
      destruct (String.eqb_spec k s); [congruence|reflexivity].
Qed.

Lemma incr_keys (k : string) (counts : list (string * Z)) :
  forall s, In s (map fst (incr k counts)) <->
            s = k \/ In s (map fst counts).
Proof.
  induction counts as [|[k' n] rest IH]; intros s; simpl.
  - intuition.
  - destruct (String.eqb_spec k' k) as [->|Hk]; simpl.
    + intuition.
    + rewrite IH. intuition.
Qed.

Lemma incr_NoDup (k : string) (counts : list (string * Z)) :
  NoDup (map fst counts) -> NoDup (map fst (incr k counts)).
Proof.
  induction counts as [|[k' n] rest IH]; simpl; intros H.
  - constructor; [intros []|constructor].
  - inversion H as [|? ? Hn Hr]; subst.
    destruct (String.eqb_spec k' k) as [->|Hk]; simpl.
    + now constructor.
    + constructor; [|now apply IH].
      rewrite incr_keys. intros [->|Hin]; [now apply Hk|now apply Hn].
Qed.

Lemma get_In (s : string) (n : Z) (counts : list (string * Z)) :
  NoDup (map fst counts) -> (In (s, n) counts <-> get s counts = Some n).
Proof.
  induction counts as [|[k m] rest IH]; simpl; intros H.
  - split; [intros []|discriminate].
  - inversion H as [|? ? Hn Hr]; subst.
    destruct (String.eqb_spec k s) as [->|Hk].
    + split.
      * intros [E|Hin]; [congruence|].
        exfalso. apply Hn. now apply (in_map fst) in Hin.
      * intros E. left. congruence.
    + rewrite <- (IH Hr). split; [|now right].
      intros [E|Hin]; [congruence|exact Hin].
Qed.

Lemma counts_fold_NoDup (rs : list row) :
  forall counts,
    NoDup (map fst counts) -> NoDup (map fst (fold_left count_step rs counts)).
Proof.
  induction rs as [|r rs IH]; intros counts H; simpl; [exact H|].
  apply IH. unfold count_step.
  destruct (truthy (col 2 r)); [now apply incr_NoDup|exact H].
Qed.

Lemma counts_fold_get (s : string) (rs : list row) :
  forall counts,
    get s (fold_left count_step rs counts) =
    match List.length (filter (has_identity s) rs), get s counts with
    | O, g => g
    | S m, Some n => Some (n + Z.of_nat (S m))
    | S m, None => Some (Z.of_nat (S m))
    end.
Proof.
  induction rs as [|r rs IH]; intros counts; simpl fold_left.
  - simpl. now destruct (get s counts).
  - rewrite IH. cbn [filter].
    unfold count_step, has_identity at 2, identity.
    destruct (truthy (col 2 r)); [|reflexivity].
    rewrite get_incr.
    destruct (String.eqb_spec (py_str (col 2 r)) s) as [E|E];
      [|reflexivity].
    cbn [List.length].
    destruct (List.length (filter _ rs)) as [|m];
      destruct (get s counts); f_equal; lia.
Qed.

Lemma string_counts_get (s : string) (sheet : worksheet) :
  get s (string_counts sheet) =
  if occurrences s sheet =? 0 then None else Some (occurrences s sheet).
Proof.
  unfold string_counts, occurrences.
  rewrite counts_fold_get.
  destruct (List.length _) as [|m]; reflexivity.
Qed.

Lemma string_counts_NoDup (sheet : worksheet) :
  NoDup (map fst (string_counts sheet)).
Proof. apply (counts_fold_NoDup (data_rows sheet) []). constructor. Qed.

(** A string is classified as low-frequency exactly when it occurs in the
    full sheet, at most 20 times. *)
Lemma low_freq_strings_spec (s : string) (sheet : worksheet) :
  In s (low_freq_strings sheet) <-> 0 < occurrences s sheet <= 20.
Proof.
  unfold low_freq_strings. rewrite in_map_iff. split.
  - intros [[k n] [E Hin]]. simpl in E. subst k.
    apply filter_In in Hin. destruct Hin as [Hin Hle]. simpl in Hle.
    apply (get_In _ _ _ (string_counts_NoDup sheet)) in Hin.
    rewrite string_counts_get in Hin.
    assert (0 <= occurrences s sheet) by apply Nat2Z.is_nonneg.
    destruct (Z.eqb_spec (occurrences s sheet) 0); [discriminate|].
    injection Hin as <-. lia.
  - intros [Hpos Hle]. exists (s, occurrences s sheet). split; [reflexivity|].
    apply filter_In. split; [|simpl; lia].
    apply (get_In _ _ _ (string_counts_NoDup sheet)).
    rewrite string_counts_get.
    destruct (Z.eqb_spec (occurrences s sheet) 0); [lia|reflexivity].
Qed.

Lemma mem_In (s : string) (l : list string) : mem s l = true <-> In s l.
Proof.
  unfold mem. rewrite existsb_exists. split.
  - intros [k [Hin E]]. apply String.eqb_eq in E. now subst.
  - intros Hin. exists s. split; [exact Hin|apply String.eqb_refl].
Qed.

Lemma is_low_freq_identity (lfs : list string) (r : row) :
  is_low_freq lfs r = true <-> exists s, identity r = Some s /\ In s lfs.
Proof.
  unfold is_low_freq, identity. destruct (truthy (col 2 r)); simpl.
  - rewrite mem_In. split.
    + intros H. now exists (py_str (col 2 r)).
    + intros [s [E H]]. now injection E as <-.
  - split; [discriminate|]. intros [s [E _]]. discriminate.
Qed.


Lemma sample_remaining_rows_spec (sheet sample_sheet : worksheet) :
  sample_remaining_rows (result (process_sheet sheet sample_sheet)) =
  Z.of_nat (List.length
              (data_rows (out_sample_sheet (process_sheet sheet sample_sheet)))).
Proof.
  rewrite <- max_row_data_rows. reflexivity.
Qed.

Lemma falsy_not_low_freq (lfs : list string) (r : row) :
  truthy (col 2 r) = false -> is_low_freq lfs r = false.
Proof. unfold is_low_freq. now intros ->. Qed.

Lemma falsy_not_counted (r : row) (pre post : list row) :
  truthy (col 2 r) = false ->
  forall counts,
    fold_left count_step (pre ++ r :: post) counts =
    fold_left count_step (pre ++ post) counts.
Proof.
  intros H counts. rewrite !fold_left_app. simpl.
  unfold count_step at 2. now rewrite H.
Qed.

Lemma filter_filter_falsy (lfs : list string) (rs : list row) :
  filter (fun r => negb (truthy (col 2 r)))
    (filter (fun r => negb (is_low_freq lfs r)) rs) =
  filter (fun r => negb (truthy (col 2 r))) rs.
Proof.
  induction rs as [|r rs IH]; simpl; [reflexivity|].
  unfold is_low_freq at 1.
  destruct (truthy (col 2 r)) eqn:E; simpl.
  - destruct (mem _ lfs); simpl; [exact IH|]. now rewrite E, IH.
  - now rewrite E, IH.
Qed.

(** ** Scale-up estimation *)

(** The estimate stored for a sheet: the sample rate times the number of
    rows of the full sheet, and 0 for an empty reduced sample. *)
Lemma hf_estimated_metaphors_spec (sheet sample_sheet : worksheet) :
  let res := result (process_sheet sheet sample_sheet) in
  total_hf_rows res = total_rows res - total_lf_rows res /\
  hf_estimated_metaphors res =
    (if 0 <? sample_remaining_rows res
     then (inject_Z (sample_metaphors res)
           / inject_Z (sample_remaining_rows res))
          * inject_Z (total_rows res)
     else 0)%Q.
Proof. split; reflexivity. Qed.

(** C1, at a sheet with 27 rows of which 2 are low-frequency: the sample
    rate 2/5 is multiplied by the 27 rows of the full sheet, giving 54/5,
    and not by the 25 high-frequency rows, which would give 10. *)
Theorem scale_up_uses_total_rows :
  let res := result (process_sheet sheet_the_cat sample_the_cat) in
  Sampler.take_sample first_rows sheet_the_cat = Ok sample_the_cat /\
  total_rows res = 27 /\ total_lf_rows res = 2 /\ total_hf_rows res = 25 /\
  sample_remaining_rows res = 5 /\ sample_metaphors res = 2 /\
  (hf_estimated_metaphors res == 54 # 5)%Q /\
  ~ (hf_estimated_metaphors res ==
     (inject_Z (sample_metaphors res) / inject_Z (sample_remaining_rows res))
     * inject_Z (total_hf_rows res))%Q.
Proof.
  vm_compute. repeat split; try reflexivity. discriminate.
Qed.

(** ** Exhaustive coding of the low-frequency types *)

(** C2, at a sheet whose only type occurs 20 times and whose sample holds
    the four rows the sampler drew: the type is low-frequency, the
    low-frequency sheet receives the four sampled rows only, and row 5 of
    the type is missing from it. *)
Theorem low_freq_sheet_holds_sampled_rows_only :
  let p := process_sheet sheet_run sample_run in
  Sampler.take_sample first_rows sheet_run = Ok sample_run /\
  occurrences "run" sheet_run = 20 /\
  low_freq_strings sheet_run = ["run"%string] /\
  List.length (data_rows (out_lf_sheet p)) = 4%nat /\
  total_lf_rows (result p) = 4 /\
  In (occurrence "run" (CStr "N") 5) (data_rows sheet_run) /\
  identity (occurrence "run" (CStr "N") 5) = Some "run"%string /\
  ~ In (occurrence "run" (CStr "N") 5) (data_rows (out_lf_sheet p)).
Proof.
  repeat split; try reflexivity.
  - vm_compute. tauto.
  - vm_compute. intros H.
    repeat (destruct H as [H|H]; [discriminate H|]). exact H.
Qed.

(** ** No double counting *)

(** C6: a type of the full sheet with at most 20 occurrences has no row
    left in the reduced sample, and [total_lf_rows] is the number of rows
    the sample sheet lost (which is also the number of rows copied to the
    low-frequency sheet). *)
Theorem no_double_counting (sheet sample_sheet : worksheet) (s : string) :
  0 < occurrences s sheet <= 20 ->
  let p := process_sheet sheet sample_sheet in
  occurrences s (out_sample_sheet p) = 0 /\
  (forall r, In r (data_rows (out_sample_sheet p)) -> identity r <> Some s) /\
  total_lf_rows (result p) =
    Z.of_nat (List.length (data_rows sample_sheet))
    - Z.of_nat (List.length (data_rows (out_sample_sheet p))) /\
  total_lf_rows (result p) =
    Z.of_nat (List.length (data_rows (out_lf_sheet p))).
Proof.
  intros Hocc p. subst p.
  assert (Hleft : forall r,
             In r (data_rows (out_sample_sheet
                                (process_sheet sheet sample_sheet))) ->
             identity r <> Some s).
  { intros r Hin E. rewrite out_sample_sheet_spec, data_rows_reduced in Hin.
    apply filter_In in Hin. destruct Hin as [_ Hn].
    assert (Hlf : is_low_freq (low_freq_strings sheet) r = true).
    { apply is_low_freq_identity. exists s. split; [exact E|].
      now apply low_freq_strings_spec. }
    rewrite Hlf in Hn. discriminate. }
  repeat split.
  - unfold occurrences.
    destruct (filter (has_identity s) _) as [|r l] eqn:E; [reflexivity|].
    exfalso.
    assert (Hin : In r (filter (has_identity s)
                          (data_rows (out_sample_sheet
                                        (process_sheet sheet sample_sheet))))).
    { rewrite E. now left. }
    apply filter_In in Hin. destruct Hin as [Hin Hid].
    apply (Hleft r Hin). unfold has_identity in Hid.
    destruct (identity r) as [k|]; [|discriminate].
    apply String.eqb_eq in Hid. now subst.
  - exact Hleft.
  - rewrite total_lf_rows_spec, out_sample_sheet_spec, data_rows_reduced.
    pose proof (filter_split_length (is_low_freq (low_freq_strings sheet))
                  (data_rows sample_sheet)).
    lia.
  - rewrite total_lf_rows_spec, out_lf_sheet_spec. reflexivity.
Qed.

Lemma no_double_counting_witness :
  0 < occurrences "cat" sheet_the_cat <= 20 /\
  occurrences "cat"
    (out_sample_sheet (process_sheet sheet_the_cat sample_the_cat)) = 0.
Proof.
  assert (H : 0 < occurrences "cat" sheet_the_cat <= 20).
  { vm_compute. split; [reflexivity|discriminate]. }
  split; [exact H|].
  exact (proj1 (no_double_counting sheet_the_cat sample_the_cat "cat" H)).
Defined.

(** ** The metaphor rule *)

Lemma is_metaphor_iff (r : row) :
  is_metaphor r = true <->
  upper (py_str (col 4 r)) = "Y"%string \/
  upper (py_str (col 4 r)) = "O"%string.
Proof.
  unfold is_metaphor. rewrite andb_true_iff, orb_true_iff, !String.eqb_eq.
  split; [tauto|]. intros H. split; [|exact H].
  destruct (col 4 r) as [|s|z]; simpl in *.
  - destruct H; discriminate.
  - destruct s; [destruct H; discriminate|reflexivity].
  - destruct (Z.eqb_spec z 0) as [->|]; [|reflexivity].
    destruct H; discriminate.
Qed.

(** C9: a row is a metaphor occurrence exactly when column E, turned into
    a string and uppercased, is Y or O; an empty cell is not one; and the
    three counters (extra sheet, low-frequency sheet, reduced sample) count
    the rows that satisfy this rule. *)
Theorem metaphor_rule :
  (forall r, is_metaphor r = true <->
             upper (py_str (col 4 r)) = "Y"%string \/
             upper (py_str (col 4 r)) = "O"%string) /\
  (forall r, col 4 r = CNone -> is_metaphor r = false) /\
  (forall extra_sheet,
      extra_metaphor_count (Some extra_sheet) =
      Z.of_nat (List.length (filter is_metaphor (data_rows extra_sheet)))) /\
  (forall sheet sample_sheet,
      let p := process_sheet sheet sample_sheet in
      low_freq_metaphors (result p) =
        Z.of_nat (List.length (filter is_metaphor (data_rows (out_lf_sheet p))))
      /\
      sample_metaphors (result p) =
        Z.of_nat
          (List.length (filter is_metaphor (data_rows (out_sample_sheet p))))).
Proof.
  split; [exact is_metaphor_iff|]. split; [|split].
  - intros r H. unfold is_metaphor. now rewrite H.
  - intros extra_sheet. apply count_metaphors_spec.
  - intros sheet sample_sheet p. subst p. split.
    + rewrite out_lf_sheet_spec. unfold process_sheet.
      cbn [result low_freq_metaphors].
      rewrite count_metaphors_spec, scan_sample_spec. reflexivity.
    + unfold process_sheet at 1. cbn [result sample_metaphors].
      rewrite count_metaphors_spec. reflexivity.
Qed.


Example metaphor_codes :
  map (fun code => is_metaphor (occurrence "w" code 1))
    [CStr "Y"; CStr "y"; CStr "O"; CStr "o"; CStr "N"; CStr "yes";
     CStr ""; CNone; CInt 0; CInt 1]%string
  = [true; true; true; true; false; false; false; false; false; false].
Proof. reflexivity. Qed.

(** ** Rows without an identity *)

(** C10: a row whose column C is [None] or the empty string adds nothing to
    the occurrence counts of the full sheet; in the sample sheet it is never
    copied to the low-frequency sheet, it stays in the reduced sample (all
    such rows do, in their order), and [sample_remaining_rows] is the number
    of rows of the reduced sample, this row included. *)
Theorem empty_identity_rows (r : row) :
  col 2 r = CNone \/ col 2 r = CStr "" ->
  (forall h pre post,
      string_counts (h :: pre ++ r :: post) = string_counts (h :: pre ++ post))
  /\
  (forall sheet sample_sheet,
      let p := process_sheet sheet sample_sheet in
      ~ In r (data_rows (out_lf_sheet p)) /\
      (In r (data_rows sample_sheet) ->
       In r (data_rows (out_sample_sheet p))) /\
      filter (fun r' => negb (truthy (col 2 r')))
        (data_rows (out_sample_sheet p)) =
      filter (fun r' => negb (truthy (col 2 r'))) (data_rows sample_sheet) /\
      sample_remaining_rows (result p) =
        Z.of_nat (List.length (data_rows (out_sample_sheet p)))).
Proof.
  intros Hr.
  assert (F : truthy (col 2 r) = false) by (destruct Hr as [-> | ->]; reflexivity).
  split.
  - intros h pre post. unfold string_counts. simpl.
    now apply falsy_not_counted.
  - intros sheet sample_sheet p. subst p.
    pose proof (falsy_not_low_freq (low_freq_strings sheet) r F) as Hn.
    repeat split.
    + rewrite out_lf_sheet_spec. simpl. intros Hin.
      apply filter_In in Hin. destruct Hin as [_ Hlf]. congruence.
    + intros Hin. rewrite out_sample_sheet_spec, data_rows_reduced.
      apply filter_In. split; [exact Hin|]. now rewrite Hn.
    + rewrite out_sample_sheet_spec, data_rows_reduced.
      apply filter_filter_falsy.
    + apply sample_remaining_rows_spec.
Qed.

Lemma empty_identity_rows_witness :
  (col 2 blank_row = CNone \/ col 2 blank_row = CStr "") /\
  In blank_row
    (data_rows
       (out_sample_sheet (process_sheet sheet_the_cat sample_with_blank))) /\
  sample_remaining_rows
    (result (process_sheet sheet_the_cat sample_with_blank)) = 1.
Proof.
  assert (H : col 2 blank_row = CNone \/ col 2 blank_row = CStr "")
    by (left; reflexivity).
  split; [exact H|]. split.
  - apply (proj2 (empty_identity_rows blank_row H)
             sheet_the_cat sample_with_blank).
    simpl. left. reflexivity.
  - reflexivity.
Defined.

End EstimatesProofs.

(* ================================================================== *)
(** * Properties of the sampler *)
(* ================================================================== *)

Module SamplerProofs.
Import Py Sampler Inputs.

(** ** Grouping *)

Lemma add_row_nonempty (key : string) (r : row)
    (groups : list (string * list row)) :
  nonempty_groups groups -> nonempty_groups (add_row key r groups).
Proof.
  unfold nonempty_groups.
  induction 1 as [|[k rs] rest Hk Hrest IH]; simpl.
  - constructor; [discriminate|constructor].
  - destruct (k =? key)%string; constructor; simpl in *; auto.
    destruct rs; discriminate.
Qed.

Lemma rows_by_value_nonempty (ws : worksheet) :
  nonempty_groups (rows_by_value ws).
Proof.
  unfold rows_by_value.
  assert (H : forall rs groups,
             nonempty_groups groups ->
             nonempty_groups
               (fold_left (fun groups r => add_row (group_key r) r groups)
                  rs groups)).
  { induction rs as [|r rs IH]; intros groups Hg; simpl; [exact Hg|].
    apply IH. now apply add_row_nonempty. }
  apply H. constructor.
Qed.

Lemma add_row_keys (key : string) (r : row)
    (groups : list (string * list row)) :
  forall k, In k (map fst (add_row key r groups)) <->
            k = key \/ In k (map fst groups).
Proof.
  induction groups as [|[k' rs] rest IH]; intros k; simpl.
  - intuition.
  - destruct (String.eqb_spec k' key) as [->|Hk]; simpl.
    + intuition.
    + rewrite IH. intuition.
Qed.

Lemma add_row_well_grouped (r : row) (groups : list (string * list row)) :
  well_grouped groups -> well_grouped (add_row (group_key r) r groups).
Proof.
  unfold well_grouped.
  induction groups as [|[k rs] rest IH]; simpl; intros [Hnd Hk].
  - split.
    + constructor; [intros []|constructor].
    + repeat constructor.
  - inversion Hnd as [|? ? Hn Hr]; subst.
    inversion Hk as [|? ? Hk1 Hk2]; subst. simpl in Hk1.
    destruct (String.eqb_spec k (group_key r)) as [E|E]; simpl.
    + split; [exact Hnd|]. constructor; [|exact Hk2]. simpl.
      apply Forall_app. split; [exact Hk1|]. constructor; auto.
    + destruct (IH (conj Hr Hk2)) as [Hnd' Hk'].
      split; constructor; auto.
      rewrite add_row_keys. intros [->|Hin]; [now apply E|now apply Hn].
Qed.

Lemma add_row_rows (key : string) (r : row)
    (groups : list (string * list row)) :
  Permutation (List.concat (map snd (add_row key r groups)))
    (r :: List.concat (map snd groups)).
Proof.
  induction groups as [|[k rs] rest IH]; simpl; [reflexivity|].
  destruct (k =? key)%string; simpl.
  - rewrite <- app_assoc. simpl. symmetry. apply Permutation_middle.
  - rewrite IH. symmetry. apply Permutation_middle.
Qed.

Lemma rows_by_value_groups (ws : worksheet) :
  well_grouped (rows_by_value ws) /\
  Permutation (List.concat (map snd (rows_by_value ws))) (data_rows ws).
Proof.
  unfold rows_by_value.
  assert (H : forall rs groups,
             well_grouped groups ->
             well_grouped
               (fold_left (fun groups r => add_row (group_key r) r groups)
                  rs groups) /\
             Permutation
               (List.concat
                  (map snd
                     (fold_left
                        (fun groups r => add_row (group_key r) r groups)
                        rs groups)))
               (List.concat (map snd groups) ++ rs)).
  { induction rs as [|r rs IH]; intros groups Hg; simpl.
    - split; [exact Hg|]. now rewrite app_nil_r.
    - destruct (IH _ (add_row_well_grouped r groups Hg)) as [Hw Hp].
      split; [exact Hw|]. rewrite Hp, add_row_rows.
      simpl. apply Permutation_middle. }
  destruct (H (data_rows ws) []) as [Hw Hp].
  - split; constructor.
  - split; [exact Hw|exact Hp].
Qed.

(** ** Drawing without replacement *)

Lemma remove_nth_length {A : Type} (j : nat) (l : list A) :
  (j < List.length l)%nat ->
  S (List.length (remove_nth j l)) = List.length l.
Proof.
  intros H. unfold remove_nth.
  rewrite length_app, firstn_length_le, length_skipn by lia. lia.
Qed.

Lemma nth_remove_nth {A : Type} (j : nat) (l : list A) (d : A) :
  (j < List.length l)%nat ->
  Permutation (nth j l d :: remove_nth j l) l.
Proof.
  revert j. induction l as [|x l IH]; intros j H; simpl in H; [lia|].
  destruct j as [|j]; [reflexivity|].
  unfold remove_nth in *. simpl.
  rewrite perm_swap. constructor. apply IH. lia.
Qed.

Lemma remove_nth_middle {A : Type} (l1 : list A) (x : A) (l2 : list A) :
  remove_nth (List.length l1) (l1 ++ x :: l2) = l1 ++ l2.
Proof.
  unfold remove_nth. induction l1 as [|y l1 IH]; [reflexivity|].
  change (y :: (firstn (List.length l1) (l1 ++ x :: l2)
                ++ skipn (S (List.length l1)) (l1 ++ x :: l2))
          = y :: l1 ++ l2).
  now rewrite IH.
Qed.

Lemma draw_length {A : Type} (g : rng) (k : nat) :
  forall pos (pool : list A),
    (k <= List.length pool)%nat ->
    List.length (fst (draw g pos k pool)) = k.
Proof.
  induction k as [|k IH]; intros pos pool H; [reflexivity|].
  destruct pool as [|x pool']; [simpl in H; lia|].
  cbn [draw].
  remember (x :: pool') as pool eqn:Epool.
  remember (g pos mod List.length pool)%nat as j eqn:Ej.
  assert (Hj : (j < List.length pool)%nat).
  { subst j. apply Nat.mod_upper_bound. subst pool. discriminate. }
  pose proof (remove_nth_length _ _ Hj) as Hl.
  specialize (IH (S pos) (remove_nth j pool)).
  destruct (draw g (S pos) k (remove_nth j pool)) as [rest pos'].
  cbn [fst List.length] in *. rewrite IH; [reflexivity|lia].
Qed.

Lemma draw_drawn_from {A : Type} (g : rng) (k : nat) :
  forall pos (pool : list A), drawn_from (fst (draw g pos k pool)) pool.
Proof.
  induction k as [|k IH]; intros pos pool.
  - exists pool. reflexivity.
  - destruct pool as [|x pool']; [exists []; reflexivity|].
    cbn [draw].
    remember (x :: pool') as pool eqn:Epool.
    remember (g pos mod List.length pool)%nat as j eqn:Ej.
    assert (Hj : (j < List.length pool)%nat).
    { subst j. apply Nat.mod_upper_bound. subst pool. discriminate. }
    specialize (IH (S pos) (remove_nth j pool)).
    destruct (draw g (S pos) k (remove_nth j pool)) as [out pos'].
    cbn [fst] in *. destruct IH as [rest Hrest]. exists rest.
    cbn [app].
    eapply Permutation_trans; [|apply (nth_remove_nth j pool x Hj)].
    now constructor.
Qed.

Lemma draw_step {A : Type} (g : rng) (pos k : nat) (pool : list A) (d : A) :
  pool <> [] ->
  fst (draw g pos (S k) pool) =
  nth (g pos mod List.length pool) pool d
    :: fst (draw g (S pos) k
              (remove_nth (g pos mod List.length pool) pool)).
Proof.
  intros H. destruct pool as [|x pool']; [congruence|].
  cbn [draw].
  remember (x :: pool') as pool eqn:Epool.
  remember (g pos mod List.length pool)%nat as j eqn:Ej.
  destruct (draw g (S pos) k (remove_nth j pool)) as [out pos'].
  cbn [fst]. f_equal. apply nth_indep.
  subst j. apply Nat.mod_upper_bound. subst pool. discriminate.
Qed.

Lemma draw_ext {A : Type} (g g' : rng) (k : nat) :
  forall pos (pool : list A),
    (forall i, (pos <= i)%nat -> g i = g' i) ->
    draw g pos k pool = draw g' pos k pool.
Proof.
  induction k as [|k IH]; intros pos pool H; [reflexivity|].
  destruct pool as [|x pool']; [reflexivity|].
  cbn [draw]. rewrite (H pos) by lia.
  rewrite (IH (S pos)); [reflexivity|].
  intros i Hi. apply H. lia.
Qed.

(** Every selection of rows at distinct positions, in any order, is the
    result of the draws for some random source. *)
Lemma draw_reaches_every_selection {A : Type} (out : list A) :
  forall pos (pool : list A),
    drawn_from out pool ->
    exists g, fst (draw g pos (List.length out) pool) = out.
Proof.
  induction out as [|x out IH]; intros pos pool [rest Hperm].
  - exists (fun _ => 0%nat). reflexivity.
  - assert (Hin : In x pool).
    { eapply Permutation_in; [exact Hperm|]. now left. }
    apply in_split in Hin. destruct Hin as [l1 [l2 ->]].
    simpl in Hperm. apply Permutation_cons_app_inv in Hperm.
    destruct (IH (S pos) (l1 ++ l2)) as [g' Hg']; [now exists rest|].
    exists (fun i => if (i =? pos)%nat then List.length l1 else g' i).
    assert (Hlen : (List.length l1 < List.length (l1 ++ x :: l2))%nat)
      by (rewrite length_app; simpl; lia).
    cbn [List.length].
    rewrite (draw_step _ _ _ _ x) by (destruct l1; discriminate).
    rewrite Nat.eqb_refl, Nat.mod_small by exact Hlen.
    rewrite nth_middle, remove_nth_middle. f_equal.
    rewrite (draw_ext _ g' _ (S pos) (l1 ++ l2)); [exact Hg'|].
    intros i Hi. destruct (Nat.eqb_spec i pos); [lia|reflexivity].
Qed.


(** ** The size of a draw *)

Lemma py_int_nonneg (x : Q) : (0 <= x)%Q -> py_int x = Qfloor x.
Proof.
  destruct x as [n d]. unfold Qle, py_int, Qfloor. simpl. intros H.
  apply Z.quot_div_nonneg; lia.
Qed.

Lemma py_int_neg (x : Q) : (x < 0)%Q -> py_int x <= 0 /\ Qfloor x < 0.
Proof.
  destruct x as [n d]. unfold Qlt, py_int, Qfloor. simpl. intros H. split.
  - assert (E : n = - (- n)) by lia. rewrite E, Z.quot_opp_l by lia.
    assert (0 <= (- n) ÷ Z.pos d) by (apply Z.quot_pos; lia). lia.
  - apply Z.div_lt_upper_bound; lia.
Qed.

(** Truncation and rounding down agree below the floor of one row. *)
Lemma max_1_py_int (x : Q) : Z.max 1 (py_int x) = Z.max 1 (Qfloor x).
Proof.
  destruct (Qlt_le_dec x 0) as [H|H].
  - apply py_int_neg in H. lia.
  - now rewrite py_int_nonneg.
Qed.

Lemma py_int_le (x : Q) (n : Z) :
  0 <= n -> (x <= inject_Z n)%Q -> py_int x <= n.
Proof.
  intros Hn H. destruct (Qlt_le_dec x 0) as [Hx|Hx].
  - apply py_int_neg in Hx. lia.
  - rewrite py_int_nonneg by exact Hx.
    apply Qfloor_resp_le in H. now rewrite Qfloor_Z in H.
Qed.

Lemma sample_size_bounds (fraction : Q) (n : nat) :
  (fraction <= 1)%Q -> (1 <= n)%nat ->
  1 <= sample_size fraction n <= Z.of_nat n.
Proof.
  intros Hf Hn. unfold sample_size.
  assert (H : py_int (inject_Z (Z.of_nat n) * fraction) <= Z.of_nat n).
  { apply py_int_le; [lia|].
    destruct fraction as [a b]. unfold Qle in *. simpl in *. nia. }
  lia.
Qed.

(** ** One group *)

Lemma sample_group_ok (fraction : Q) (min_group_size : Z) (g : rng)
    (pos : nat) (rows : list row) :
  (fraction <= 1)%Q -> rows <> [] ->
  exists out pos',
    sample_group fraction min_group_size g pos rows = Ok (out, pos') /\
    group_sampled fraction min_group_size rows out.
Proof.
  intros Hf Hne. unfold sample_group, group_sampled.
  destruct (Z.of_nat (List.length rows) <? min_group_size).
  - exists rows, pos. repeat split. exists []. now rewrite app_nil_r.
  - assert (Hn : (1 <= List.length rows)%nat)
      by (destruct rows; [congruence|simpl; lia]).
    pose proof (sample_size_bounds fraction _ Hf Hn) as Hk.
    unfold random_sample.
    destruct (Z.ltb_spec (sample_size fraction (List.length rows)) 0); [lia|].
    destruct (Z.ltb_spec (Z.of_nat (List.length rows))
                (sample_size fraction (List.length rows))); [lia|].
    simpl orb. cbv iota.
    destruct (draw g pos (Z.to_nat (sample_size fraction (List.length rows)))
                rows) as [out pos'] eqn:E.
    exists out, pos'. split; [reflexivity|]. split.
    + replace out with (fst (draw g pos
                               (Z.to_nat (sample_size fraction
                                            (List.length rows))) rows))
        by now rewrite E.
      rewrite draw_length by lia.
      rewrite Z2Nat.id by lia. unfold sample_size. apply max_1_py_int.
    + replace out with (fst (draw g pos
                               (Z.to_nat (sample_size fraction
                                            (List.length rows))) rows))
        by now rewrite E.
      apply draw_drawn_from.
Qed.

(** ** The loop over the groups *)

Lemma sampling_loop_ok (fraction : Q) (min_group_size : Z) (g : rng)
    (groups : list (string * list row)) :
  (fraction <= 1)%Q -> nonempty_groups groups ->
  forall pos new_worksheet,
  exists sampled,
    sampling_loop fraction min_group_size g pos groups new_worksheet =
      Ok (new_worksheet ++ List.concat sampled) /\
    Forall2 (fun grp out => group_sampled fraction min_group_size (snd grp) out)
      groups sampled.
Proof.
  intros Hf. induction 1 as [|[key rows] rest Hne _ IH];
    intros pos new_worksheet.
  - exists []. simpl. rewrite app_nil_r. split; [reflexivity|constructor].
  - destruct (sample_group_ok fraction min_group_size g pos rows Hf Hne)
      as [out [pos' [E Hs]]].
    destruct (IH pos' (new_worksheet ++ out)) as [sampled [El Hl]].
    exists (out :: sampled). split.
    + cbn [sampling_loop]. rewrite E. cbn [bind fst snd].
      rewrite El. simpl. now rewrite <- app_assoc.
    + now constructor.
Qed.

Lemma take_sample_with_ok (fraction : Q) (min_group_size : Z) (g : rng)
    (ws : worksheet) :
  (fraction <= 1)%Q ->
  exists sampled,
    take_sample_with fraction min_group_size g ws =
      Ok (row1 ws :: List.concat sampled) /\
    Forall2 (fun grp out => group_sampled fraction min_group_size (snd grp) out)
      (rows_by_value ws) sampled.
Proof.
  intros Hf. unfold take_sample_with.
  apply (sampling_loop_ok fraction min_group_size g (rows_by_value ws) Hf
           (rows_by_value_nonempty ws) 0%nat [row1 ws]).
Qed.


End SamplerProofs.

(* ================================================================== *)
(** * Properties of the statistics *)
(* ================================================================== *)

Module SignificanceProofs.
Import Py Significance Inputs.
Local Open Scope R_scope.

(** ** Comparisons *)

Lemma Rltb_true (x y : R) : x < y -> Rltb x y = true.
Proof. intros H. unfold Rltb. destruct (Rlt_dec x y); [reflexivity|lra]. Qed.

Lemma Rltb_false (x y : R) : y <= x -> Rltb x y = false.
Proof. intros H. unfold Rltb. destruct (Rlt_dec x y); [lra|reflexivity]. Qed.

Lemma Rleb_true (x y : R) : x <= y -> Rleb x y = true.
Proof. intros H. unfold Rleb. destruct (Rle_dec x y); [reflexivity|lra]. Qed.

Lemma Rleb_false (x y : R) : y < x -> Rleb x y = false.
Proof. intros H. unfold Rleb. destruct (Rle_dec x y); [lra|reflexivity]. Qed.

Lemma py_div_ok (x y : R) : y <> 0 -> py_div x y = Ok (x / y).
Proof.
  intros H. unfold py_div. destruct (Req_dec_T y 0); [contradiction|reflexivity].
Qed.

Lemma math_log_ok (x : R) : 0 < x -> math_log x = Ok (ln x).
Proof. intros H. unfold math_log. now rewrite Rltb_true. Qed.

Lemma math_log2_ok (x : R) : 0 < x -> math_log2 x = Ok (log2 x).
Proof. intros H. unfold math_log2. now rewrite Rltb_true. Qed.

(** ** Logarithms *)



Lemma ln_2_pos : 0 < ln 2.
Proof. rewrite <- ln_1. apply ln_increasing; lra. Qed.

Lemma log2_pos (x : R) : 1 < x -> 0 < log2 x.
Proof.
  intros H. unfold log2. apply Rdiv_lt_0_compat; [|apply ln_2_pos].
  rewrite <- ln_1. apply ln_increasing; lra.
Qed.

Lemma log2_neg (x : R) : 0 < x -> x < 1 -> log2 x < 0.
Proof.
  intros H0 H1. unfold log2.
  assert (Hl : ln x < 0) by (rewrite <- ln_1; now apply ln_increasing).
  pose proof ln_2_pos as H2.
  assert (E : ln x / ln 2 = - ((- ln x) / ln 2)) by (field; lra).
  rewrite E.
  assert (0 < - ln x / ln 2) by (apply Rdiv_lt_0_compat; lra). lra.
Qed.


(** ** One cell of the contingency table *)



(** The statement skips a cell whatever the inputs: it never raises. *)
Lemma add_cell_total (o e g2 : R) : exists v, add_cell o e g2 = Ok v.
Proof.
  unfold add_cell. unfold Rltb.
  destruct (Rlt_dec 0 e) as [He|He]; destruct (Rlt_dec 0 o) as [Ho|Ho];
    simpl; eauto.
  rewrite py_div_ok by lra. simpl.
  rewrite math_log_ok by now apply Rdiv_lt_0_compat.
  simpl. eauto.
Qed.


(** ** The G2 statistic *)

(** In the real-number reading no quotient underflows, so every cell that
    is not skipped has a logarithm and the model returns on every input. *)
Lemma g2_never_raises (a b ssc_words lec_words : R) :
  exists g2, g2_log_likelihood a b ssc_words lec_words = Ok g2.
Proof.
  unfold g2_log_likelihood. unfold Rleb.
  destruct (Rle_dec (ssc_words + lec_words) 0) as [H|H]; [eauto|].
  rewrite !py_div_ok by lra. cbn [bind].
  destruct (add_cell_total a ((a + b) * ssc_words / (ssc_words + lec_words)) 0)
    as [g1 ->]. cbn [bind].
  destruct (add_cell_total b ((a + b) * lec_words / (ssc_words + lec_words)) g1)
    as [g2 ->]. cbn [bind].
  destruct (add_cell_total (ssc_words - a)
              ((ssc_words - a + (lec_words - b)) * ssc_words
               / (ssc_words + lec_words)) g2) as [g3 ->]. cbn [bind].
  destruct (add_cell_total (lec_words - b)
              ((ssc_words - a + (lec_words - b)) * lec_words
               / (ssc_words + lec_words)) g3) as [g4 ->]. cbn [bind].
  eauto.
Qed.






(** ** The log ratio *)

Lemma zero_floor_pos : 0 < zero_floor.
Proof. unfold zero_floor. lra. Qed.





(** ** Corpus sizes *)

Local Open Scope Q_scope.











(** The scenario of the contract: 50 occurrences at 2.5 per 1,000 words and
    10 at 0.8 give corpora of 20,000 and 12,500 words; without a TOTALS
    row, and with a total count of 0, the engine raises. *)
Example corpus_sizes_scenario :
  (exists ssc lec,
      corpus_sizes table_with_totals None None = Ok (ssc, lec) /\
      ssc == 20000 /\ lec == 12500) /\
  (exists ssc lec,
      corpus_sizes table_with_totals (Some 7) None = Ok (ssc, lec) /\
      ssc == 20000 /\ lec == 12500) /\
  corpus_sizes table_with_totals (Some 7) (Some 9) = Ok (7, 9) /\
  corpus_sizes table_with_totals (Some 7) (Some 0)
  = Raise (ValueError "Corpus sizes must be > 0.") /\
  corpus_sizes table_without_totals None None
  = Raise (ValueError "No TOTALS row found.") /\
  corpus_sizes table_with_empty_totals None None
  = Raise (ValueError "Corpus sizes must be > 0.").
Proof.
  repeat split; try reflexivity;
    (eexists; eexists; split; [vm_compute; reflexivity|split; reflexivity]).
Qed.

End SignificanceProofs.

(* ================================================================== *)
(** * Further properties of the partitioner and the estimator *)
(* ================================================================== *)

Module EstimatesExtras.
Import Py Estimates Inputs EstimatesProofs.

Lemma filter_split_perm {A : Type} (p : A -> bool) (l : list A) :
  Permutation (filter p l ++ filter (fun x => negb (p x)) l) l.
Proof.
  induction l as [|x l IH]; simpl; [reflexivity|].
  destruct (p x); simpl.
  - now constructor.
  - symmetry. apply Permutation_cons_app. now symmetry.
Qed.

Lemma filter_length_le {A : Type} (p : A -> bool) (l : list A) :
  (List.length (filter p l) <= List.length l)%nat.
Proof.
  induction l as [|x l IH]; simpl; [lia|]. destruct (p x); simpl; lia.
Qed.

Lemma count_metaphors_app (l1 l2 : list row) :
  count_metaphors (l1 ++ l2) = count_metaphors l1 + count_metaphors l2.
Proof.
  rewrite !count_metaphors_spec, filter_app, length_app. lia.
Qed.

Lemma count_metaphors_perm (l1 l2 : list row) :
  Permutation l1 l2 -> count_metaphors l1 = count_metaphors l2.
Proof.
  intros H. rewrite !count_metaphors_spec. f_equal.
  apply Permutation_length.
  induction H as [|x l l' _ IH|x y l|l l' l'' _ IH1 _ IH2]; simpl.
  - reflexivity.
  - destruct (is_metaphor x); [now constructor|exact IH].
  - destruct (is_metaphor x), (is_metaphor y);
      try reflexivity. apply perm_swap.
  - now transitivity (filter is_metaphor l').
Qed.

(** X1: The rows of the sample sheet are split between the low-frequency sheet
    and the reduced sample: none is lost, none is in both, and the coded
    metaphors of the two parts add up to those of the sample sheet.  Both
    sheets start with the header of the sample sheet. *)
Theorem partition_conserves_rows (sheet sample_sheet : worksheet) :
  let p := process_sheet sheet sample_sheet in
  Permutation
    (data_rows (out_lf_sheet p) ++ data_rows (out_sample_sheet p))
    (data_rows sample_sheet) /\
  low_freq_metaphors (result p) + sample_metaphors (result p) =
    count_metaphors (data_rows sample_sheet) /\
  row1 (out_lf_sheet p) = row1 sample_sheet /\
  row1 (out_sample_sheet p) = row1 sample_sheet.
Proof.
  intros p. subst p.
  assert (P : Permutation
                (data_rows (out_lf_sheet (process_sheet sheet sample_sheet))
                 ++ data_rows
                      (out_sample_sheet (process_sheet sheet sample_sheet)))
                (data_rows sample_sheet)).
  { rewrite out_lf_sheet_spec, out_sample_sheet_spec, data_rows_reduced.
    apply filter_split_perm. }
  split; [exact P|]. split; [|split].
  - rewrite <- (count_metaphors_perm _ _ P), count_metaphors_app.
    reflexivity.
  - now rewrite out_lf_sheet_spec.
  - rewrite out_sample_sheet_spec. now destruct sample_sheet.
Qed.

(** ** Bounds on the figures of a sheet *)

Lemma count_metaphors_bounds (rs : list row) :
  0 <= count_metaphors rs <= Z.of_nat (List.length rs).
Proof.
  rewrite count_metaphors_spec.
  pose proof (filter_length_le is_metaphor rs). lia.
Qed.

Lemma scale_up_bounds (m n t : Z) :
  0 <= m <= n -> 0 <= t ->
  (0 <= scale_up m n t)%Q /\ (scale_up m n t <= inject_Z t)%Q.
Proof.
  intros Hm Ht. unfold scale_up.
  destruct (Z.ltb_spec 0 n) as [Hn|Hn].
  - unfold Qle, Qdiv, Qmult, Qinv, inject_Z. simpl.
    destruct n as [|n'|n']; try lia. simpl. split; nia.
  - split; [discriminate|]. unfold Qle, inject_Z. simpl. lia.
Qed.

(** X2: Every figure stored for a sheet is within its natural range: the
    metaphor counts do not exceed the row counts they were taken from, the
    scaled-up estimate lies between 0 and the number of rows of the full
    sheet, and the final estimate is at least the low-frequency count. *)
Theorem sheet_figures_bounded (sheet sample_sheet : worksheet) :
  let res := result (process_sheet sheet sample_sheet) in
  0 <= total_rows res /\
  0 <= low_freq_metaphors res <= total_lf_rows res /\
  0 <= sample_metaphors res <= sample_remaining_rows res /\
  (0 <= hf_estimated_metaphors res)%Q /\
  (hf_estimated_metaphors res <= inject_Z (total_rows res))%Q /\
  (inject_Z (low_freq_metaphors res) <= final_estimate_excluding_extra res)%Q.
Proof.
  intros res. subst res.
  set (p := process_sheet sheet sample_sheet).
  assert (Ht : 0 <= total_rows (result p)).
  { unfold p, process_sheet. cbn [result total_rows].
    rewrite max_row_data_rows. lia. }
  assert (Hl : 0 <= low_freq_metaphors (result p) <= total_lf_rows (result p)).
  { replace (low_freq_metaphors (result p))
      with (count_metaphors (data_rows (out_lf_sheet p))) by reflexivity.
    replace (total_lf_rows (result p))
      with (Z.of_nat (List.length (data_rows (out_lf_sheet p)))).
    - apply count_metaphors_bounds.
    - unfold p. now rewrite total_lf_rows_spec, out_lf_sheet_spec. }
  assert (Hs : 0 <= sample_metaphors (result p)
               <= sample_remaining_rows (result p)).
  { unfold p. rewrite sample_remaining_rows_spec.
    apply count_metaphors_bounds. }
  destruct (scale_up_bounds _ _ _ Hs Ht) as [H0 H1].
  repeat split; try assumption; try apply Hl; try apply Hs.
  change (final_estimate_excluding_extra (result p))
    with (hf_estimated_metaphors (result p)
          + inject_Z (low_freq_metaphors (result p)))%Q.
  change (hf_estimated_metaphors (result p))
    with (scale_up (sample_metaphors (result p))
            (sample_remaining_rows (result p)) (total_rows (result p))).
  rewrite <- (Qplus_0_l (inject_Z (low_freq_metaphors (result p)))) at 1.
  apply Qplus_le_compat; [exact H0|apply Qle_refl].
Qed.


(** ** Running the partition a second time *)

Lemma filter_low_freq_reduced (lfs : list string) (rs : list row) :
  filter (is_low_freq lfs) (filter (fun r => negb (is_low_freq lfs r)) rs)
  = [].
Proof.
  induction rs as [|r rs IH]; simpl; [reflexivity|].
  destruct (is_low_freq lfs r) eqn:E; simpl; [exact IH|].
  now rewrite E.
Qed.

Lemma filter_idempotent {A : Type} (p : A -> bool) (l : list A) :
  filter p (filter p l) = filter p l.
Proof.
  induction l as [|x l IH]; simpl; [reflexivity|].
  destruct (p x) eqn:E; simpl; [now rewrite E, IH|exact IH].
Qed.

(** X3: Processing the same sheet again with the reduced sample removes nothing
    more, but the low-frequency sheet it writes holds the header only: the
    second run reports no low-frequency row, no low-frequency metaphor and
    counts every row of the full sheet as high-frequency. *)
Theorem second_run_forgets_low_freq (sheet sample_sheet : worksheet) :
  let p := process_sheet sheet sample_sheet in
  let p' := process_sheet sheet (out_sample_sheet p) in
  out_sample_sheet p' = out_sample_sheet p /\
  out_lf_sheet p' = [row1 sample_sheet] /\
  total_lf_rows (result p') = 0 /\
  low_freq_metaphors (result p') = 0 /\
  total_hf_rows (result p') = total_rows (result p') /\
  sample_metaphors (result p') = sample_metaphors (result p) /\
  hf_estimated_metaphors (result p') = hf_estimated_metaphors (result p).
Proof.
  intros p p'.
  assert (Es : out_sample_sheet p' = out_sample_sheet p).
  { unfold p', p. rewrite !out_sample_sheet_spec.
    destruct sample_sheet as [|h rs]; [reflexivity|]. simpl. f_equal.
    apply filter_idempotent. }
  assert (El : out_lf_sheet p' = [row1 sample_sheet]).
  { unfold p'. rewrite out_lf_sheet_spec. unfold p.
    rewrite out_sample_sheet_spec, data_rows_reduced.
    rewrite filter_low_freq_reduced. f_equal.
    now destruct sample_sheet. }
  assert (Et : total_lf_rows (result p') = 0).
  { unfold p'. rewrite total_lf_rows_spec. unfold p.
    rewrite out_sample_sheet_spec, data_rows_reduced.
    now rewrite filter_low_freq_reduced. }
  assert (Em : sample_metaphors (result p') = sample_metaphors (result p)).
  { change (count_metaphors (data_rows (out_sample_sheet p'))
            = count_metaphors (data_rows (out_sample_sheet p))).
    now rewrite Es. }
  assert (Er : sample_remaining_rows (result p')
               = sample_remaining_rows (result p)).
  { unfold p' at 1. rewrite sample_remaining_rows_spec. fold p'.
    rewrite Es. unfold p. now rewrite sample_remaining_rows_spec. }
  repeat split; try assumption.
  - change (count_metaphors (data_rows (out_lf_sheet p')) = 0).
    now rewrite El.
  - change (total_rows (result p') - total_lf_rows (result p')
            = total_rows (result p')). lia.
  - change (scale_up (sample_metaphors (result p'))
              (sample_remaining_rows (result p')) (total_rows (result p'))
            = scale_up (sample_metaphors (result p))
                (sample_remaining_rows (result p)) (total_rows (result p))).
    now rewrite Em, Er.
Qed.

(** ** The dictionary of counts *)

Lemma kept_keys_NoDup (keep : string * Z -> bool)
    (counts : list (string * Z)) :
  NoDup (map fst counts) -> NoDup (map fst (filter keep counts)).
Proof.
  intros Hnd. induction counts as [|[k n] counts IH]; [constructor|].
  cbn [map fst] in Hnd. apply NoDup_cons_iff in Hnd.
  destruct Hnd as [Hk Hrest]. cbn [filter].
  destruct (keep (k, n)); [|now apply IH].
  cbn [map fst]. apply NoDup_cons; [|now apply IH].
  intros Hin. apply Hk. apply in_map_iff in Hin.
  destruct Hin as [[k' n'] [E Hin]]. cbn [fst] in E. subst k'.
  apply filter_In in Hin. apply in_map_iff. exists (k, n'). tauto.
Qed.

(** X4: The dictionary built from the full sheet has one entry per string of
    column C, holding its number of occurrences; a string that does not
    occur has no entry.  The list of low-frequency strings names each
    string with 1 to 20 occurrences once. *)
Theorem string_counts_lookup (sheet : worksheet) :
  NoDup (map fst (string_counts sheet)) /\
  (forall s,
      get s (string_counts sheet) =
      if occurrences s sheet =? 0 then None
      else Some (occurrences s sheet)) /\
  NoDup (low_freq_strings sheet) /\
  (forall s,
      In s (low_freq_strings sheet) <-> 0 < occurrences s sheet <= 20).
Proof.
  split; [apply string_counts_NoDup|]. split; [|split].
  - intros s. apply string_counts_get.
  - unfold low_freq_strings. apply kept_keys_NoDup.
    apply string_counts_NoDup.
  - intros s. apply low_freq_strings_spec.
Qed.

(** ** Rows that are not low-frequency *)

(** X5: A sample row whose type occurs more than 20 times in the full sheet, or
    does not occur in it at all, stays in the reduced sample and is not
    copied to the low-frequency sheet. *)
Theorem other_types_stay (sheet sample_sheet : worksheet) (r : row)
    (s : string) :
  identity r = Some s ->
  occurrences s sheet = 0 \/ 20 < occurrences s sheet ->
  In r (data_rows sample_sheet) ->
  let p := process_sheet sheet sample_sheet in
  In r (data_rows (out_sample_sheet p)) /\
  ~ In r (data_rows (out_lf_sheet p)).
Proof.
  intros Hid Hocc Hin p. subst p.
  assert (Hn : is_low_freq (low_freq_strings sheet) r = false).
  { destruct (is_low_freq (low_freq_strings sheet) r) eqn:E; [|reflexivity].
    apply is_low_freq_identity in E. destruct E as [s' [E Hs']].
    rewrite Hid in E. injection E as <-.
    apply low_freq_strings_spec in Hs'. lia. }
  split.
  - rewrite out_sample_sheet_spec, data_rows_reduced.
    apply filter_In. split; [exact Hin|]. now rewrite Hn.
  - rewrite out_lf_sheet_spec. simpl. intros H.
    apply filter_In in H. destruct H as [_ H]. congruence.
Qed.

Lemma other_types_stay_witness :
  identity (occurrence "the" (CStr "Y") 1) = Some "the"%string /\
  (occurrences "the" sheet_the_cat = 0 \/
   20 < occurrences "the" sheet_the_cat) /\
  In (occurrence "the" (CStr "Y") 1)
    (data_rows
       (out_sample_sheet (process_sheet sheet_the_cat sample_the_cat))).
Proof.
  assert (H1 : identity (occurrence "the" (CStr "Y") 1) = Some "the"%string)
    by reflexivity.
  assert (H2 : occurrences "the" sheet_the_cat = 0 \/
               20 < occurrences "the" sheet_the_cat)
    by (right; vm_compute; reflexivity).
  assert (H3 : In (occurrence "the" (CStr "Y") 1) (data_rows sample_the_cat))
    by (simpl; left; reflexivity).
  split; [exact H1|]. split; [exact H2|].
  exact (proj1 (other_types_stay sheet_the_cat sample_the_cat _ _ H1 H2 H3)).
Defined.

End EstimatesExtras.

(* ================================================================== *)
(** * Further properties of the sampler *)
(* ================================================================== *)

Module SamplerExtras.
Import Py Sampler Inputs SamplerProofs.

(** X6: The dictionary of groups splits the rows of the sheet: no key has two
    groups, the rows of a group all have its key, no group is empty, and
    the groups together hold the rows of the sheet, each once. *)
Theorem rows_by_value_partition (ws : worksheet) :
  NoDup (map fst (rows_by_value ws)) /\
  Forall (fun grp => Forall (fun r => group_key r = fst grp) (snd grp))
    (rows_by_value ws) /\
  Forall (fun grp => snd grp <> []) (rows_by_value ws) /\
  Permutation (List.concat (map snd (rows_by_value ws))) (data_rows ws).
Proof.
  destruct (rows_by_value_groups ws) as [[Hnd Hk] Hp].
  repeat split; try assumption. apply rows_by_value_nonempty.
Qed.

Lemma drawn_from_concat (groups : list (string * list row))
    (sampled : list (list row)) :
  Forall2 (fun grp out => drawn_from out (snd grp)) groups sampled ->
  drawn_from (List.concat sampled) (List.concat (map snd groups)).
Proof.
  induction 1 as [|grp out groups sampled [rest Hrest] _ [rest' IH]].
  - exists []. reflexivity.
  - exists (rest ++ rest'). simpl.
    rewrite <- Hrest, <- IH.
    rewrite <- !app_assoc. apply Permutation_app_head.
    rewrite !app_assoc. apply Permutation_app_tail.
    apply Permutation_app_comm.
Qed.

Lemma group_sampled_nonempty (fraction : Q) (min_group_size : Z)
    (rows out : list row) :
  rows <> [] -> group_sampled fraction min_group_size rows out -> out <> [].
Proof.
  intros Hne [H _]. cbv zeta in H.
  destruct (Z.of_nat (List.length rows) <? min_group_size).
  - now subst.
  - intros ->. simpl in H. lia.
Qed.

Lemma drawn_from_In {A : Type} (out pool : list A) (x : A) :
  drawn_from out pool -> In x out -> In x pool.
Proof.
  intros [rest H] Hin. eapply Permutation_in; [exact H|].
  apply in_or_app. now left.
Qed.

Lemma drawn_from_length {A : Type} (out pool : list A) :
  drawn_from out pool -> (List.length out <= List.length pool)%nat.
Proof.
  intros [rest H]. apply Permutation_length in H.
  rewrite length_app in H. lia.
Qed.

Lemma Forall2_In_l {A B : Type} (R : A -> B -> Prop) (l : list A)
    (l' : list B) (x : A) :
  Forall2 R l l' -> In x l -> exists y, In y l' /\ R x y.
Proof.
  induction 1 as [|a b l l' Hab _ IH]; intros Hin; [destruct Hin|].
  destruct Hin as [->|Hin].
  - exists b. split; [now left|exact Hab].
  - destruct (IH Hin) as [y [Hy Hr]]. exists y. split; [now right|exact Hr].
Qed.

(** X7: Whatever the random source, the new worksheet starts with the header
    of the sheet, its rows are rows of the sheet, none taken twice, and
    every group of the sheet has at least one row in it. *)
Theorem sample_represents_groups (g : rng) (ws : worksheet) :
  exists new_worksheet,
    take_sample g ws = Ok new_worksheet /\
    row1 new_worksheet = row1 ws /\
    drawn_from (data_rows new_worksheet) (data_rows ws) /\
    (List.length (data_rows new_worksheet)
     <= List.length (data_rows ws))%nat /\
    (forall r, In r (data_rows ws) ->
               exists r', In r' (data_rows new_worksheet) /\
                          group_key r' = group_key r).
Proof.
  destruct (take_sample_with_ok (1 # 5) 20 g ws) as [sampled [E Hs]];
    [discriminate|].
  destruct (rows_by_value_groups ws) as [[Hnd Hk] Hp].
  pose proof (rows_by_value_nonempty ws) as Hne.
  exists (row1 ws :: List.concat sampled).
  assert (Hd : drawn_from (List.concat sampled) (data_rows ws)).
  { destruct (drawn_from_concat (rows_by_value ws) sampled) as [rest Hr].
    - eapply Forall2_impl; [|exact Hs]. intros grp out H. apply H.
    - exists rest. now rewrite Hr. }
  split; [exact E|]. split; [reflexivity|]. split; [exact Hd|].
  split; [now apply drawn_from_length|].
  intros r Hin.
  assert (Hin' : In r (List.concat (map snd (rows_by_value ws)))).
  { eapply Permutation_in; [symmetry; exact Hp|exact Hin]. }
  apply in_concat in Hin'. destruct Hin' as [rows [Hrows Hr]].
  apply in_map_iff in Hrows. destruct Hrows as [grp [<- Hgrp]].
  destruct (Forall2_In_l _ _ _ grp Hs Hgrp) as [out [Hout Hgs]].
  unfold nonempty_groups in Hne. rewrite Forall_forall in Hk, Hne.
  pose proof (group_sampled_nonempty _ _ _ _ (Hne grp Hgrp) Hgs) as Hnz.
  destruct out as [|r' out']; [congruence|].
  exists r'. split.
  - simpl. apply in_concat. exists (r' :: out'). split; [exact Hout|now left].
  - specialize (Hk grp Hgrp). rewrite Forall_forall in Hk.
    rewrite (Hk r Hr). apply Hk.
    apply (drawn_from_In (r' :: out')); [apply Hgs|now left].
Qed.

(** X8: When every group has fewer than 20 rows nothing is drawn at random:
    the new worksheet is the sheet with its rows put group by group. *)
Theorem small_groups_kept_whole (g : rng) (ws : worksheet) :
  Forall (fun grp => (List.length (snd grp) < 20)%nat) (rows_by_value ws) ->
  take_sample g ws =
  Ok (row1 ws :: List.concat (map snd (rows_by_value ws))).
Proof.
  intros Hsmall.
  destruct (take_sample_with_ok (1 # 5) 20 g ws) as [sampled [E Hs]];
    [discriminate|].
  unfold take_sample. rewrite E. do 3 f_equal. clear E.
  revert Hsmall. induction Hs as [|grp out groups sampled H _ IH];
    intros Hsmall; [reflexivity|].
  inversion Hsmall as [|? ? Hg Hrest]; subst.
  simpl. f_equal; [|now apply IH].
  destruct H as [H _]. cbv zeta in H.
  destruct (Z.ltb_spec (Z.of_nat (List.length (snd grp))) 20); [exact H|lia].
Qed.

Lemma small_groups_kept_whole_witness :
  Forall (fun grp => (List.length (snd grp) < 20)%nat)
    (rows_by_value sample_the_cat) /\
  take_sample first_rows sample_the_cat = Ok sample_the_cat.
Proof.
  assert (H : Forall (fun grp => (List.length (snd grp) < 20)%nat)
                (rows_by_value sample_the_cat)).
  { vm_compute. repeat constructor. }
  split; [exact H|].
  exact (small_groups_kept_whole first_rows sample_the_cat H).
Defined.

End SamplerExtras.

(* ================================================================== *)
(** * The sampler followed by the partitioner *)
(* ================================================================== *)

Module PipelineExtras.
Import Py Sampler Estimates Pipeline Inputs SamplerProofs EstimatesProofs.

Lemma filter_perm {A : Type} (p : A -> bool) (l l' : list A) :
  Permutation l l' -> Permutation (filter p l) (filter p l').
Proof.
  induction 1 as [|x l l' _ IH|x y l|l l' l'' _ IH1 _ IH2]; simpl.
  - reflexivity.
  - destruct (p x); [now constructor|exact IH].
  - destruct (p x), (p y); try reflexivity. apply perm_swap.
  - now transitivity (filter p l').
Qed.

Lemma filter_none {A : Type} (p : A -> bool) (l : list A) :
  (forall x, In x l -> p x = false) -> filter p l = [].
Proof.
  induction l as [|x l IH]; intros H; simpl; [reflexivity|].
  rewrite (H x) by now left. apply IH. intros y Hy. apply H. now right.
Qed.

Lemma filter_all {A : Type} (p : A -> bool) (l : list A) :
  (forall x, In x l -> p x = true) -> filter p l = l.
Proof.
  induction l as [|x l IH]; intros H; simpl; [reflexivity|].
  rewrite (H x) by now left. f_equal. apply IH. intros y Hy. apply H.
  now right.
Qed.

Lemma filter_under {A : Type} (p q : A -> bool) (l : list A) :
  (forall x, q x = true -> p x = true) ->
  filter q (filter p l) = filter q l.
Proof.
  intros H. induction l as [|x l IH]; simpl; [reflexivity|].
  destruct (p x) eqn:Ep; simpl.
  - now rewrite IH.
  - destruct (q x) eqn:Eq; [|exact IH].
    rewrite (H x Eq) in Ep. discriminate.
Qed.

Lemma filter_concat {A : Type} (p : A -> bool) (ls : list (list A)) :
  filter p (List.concat ls) = List.concat (map (filter p) ls).
Proof.
  induction ls as [|l ls IH]; simpl; [reflexivity|].
  now rewrite filter_app, IH.
Qed.

Lemma has_identity_same_key (s : string) (r : row) :
  has_identity s r = true -> same_key s r = true.
Proof.
  unfold has_identity, identity, same_key, group_key.
  destruct (truthy (col 2 r)); [|discriminate].
  intros H. apply String.eqb_eq in H. rewrite H. apply String.eqb_refl.
Qed.

Lemma group_size_le (s : string) (groups : list (string * list row))
    (grp : string * list row) :
  In grp groups ->
  Forall (fun r => group_key r = lower s) (snd grp) ->
  (List.length (snd grp)
   <= List.length (filter (same_key s) (List.concat (map snd groups))))%nat.
Proof.
  intros Hin Hk. induction groups as [|g' groups IH]; [destruct Hin|].
  simpl. rewrite filter_app, length_app.
  destruct Hin as [->|Hin].
  - rewrite filter_all; [lia|].
    rewrite Forall_forall in Hk. intros r Hr. unfold same_key.
    rewrite (Hk r Hr). apply String.eqb_refl.
  - specialize (IH Hin). lia.
Qed.

(** X9: A type whose group, rows in any letter case included, has fewer than
    20 rows is coded in full: after sampling and partitioning, the
    low-frequency sheet holds every row of the type that the full sheet
    has. *)
Theorem low_freq_type_below_floor_is_exhaustive (g : rng)
    (ws sample_sheet : worksheet) (s : string) :
  take_sample g ws = Ok sample_sheet ->
  (List.length (filter (same_key s) (data_rows ws)) < 20)%nat ->
  0 < occurrences s ws ->
  let p := process_sheet ws sample_sheet in
  In s (low_freq_strings ws) /\
  Permutation (filter (has_identity s) (data_rows (out_lf_sheet p)))
    (filter (has_identity s) (data_rows ws)).
Proof.
  intros Hsample Hsize Hocc p. subst p.
  destruct (take_sample_with_ok (1 # 5) 20 g ws) as [sampled [E Hs]];
    [discriminate|].
  unfold take_sample in Hsample. rewrite E in Hsample.
  injection Hsample as <-.
  destruct (rows_by_value_groups ws) as [[Hnd Hk] Hp].
  assert (Hle : occurrences s ws
                <= Z.of_nat (List.length
                               (filter (same_key s) (data_rows ws)))).
  { unfold occurrences. apply inj_le.
    rewrite <- (filter_under (same_key s) (has_identity s) (data_rows ws))
      by apply has_identity_same_key.
    apply EstimatesExtras.filter_length_le. }
  assert (Hlf : In s (low_freq_strings ws)).
  { apply low_freq_strings_spec. lia. }
  split; [exact Hlf|].
  rewrite out_lf_sheet_spec. cbn [data_rows tl].
  rewrite filter_under.
  2:{ intros r Hr. apply is_low_freq_identity. exists s. split; [|exact Hlf].
      unfold has_identity in Hr. destruct (identity r) as [k|];
        [|discriminate]. apply String.eqb_eq in Hr. now subst. }
  rewrite <- (filter_perm (has_identity s) _ _ Hp).
  assert (Eq : forall groups sampled',
             Forall2 (fun grp out => group_sampled (1 # 5) 20 (snd grp) out)
               groups sampled' ->
             (forall grp, In grp groups -> In grp (rows_by_value ws)) ->
             filter (has_identity s) (List.concat sampled') =
             filter (has_identity s) (List.concat (map snd groups))).
  { induction 1 as [|grp out groups sampled' Hg _ IH]; intros Hsub;
      [reflexivity|].
    simpl. rewrite !filter_app. f_equal.
    2:{ apply IH. intros grp' H'. apply Hsub. now right. }
    assert (Hgrp : In grp (rows_by_value ws)) by (apply Hsub; now left).
    rewrite Forall_forall in Hk. specialize (Hk grp Hgrp).
    destruct (String.eqb_spec (fst grp) (lower s)) as [Ek|Ek].
    - rewrite Ek in Hk.
      pose proof (group_size_le s _ grp Hgrp Hk) as Hsz.
      rewrite (Permutation_length (filter_perm (same_key s) _ _ Hp)) in Hsz.
      destruct Hg as [Hg _]. cbv zeta in Hg.
      destruct (Z.ltb_spec (Z.of_nat (List.length (snd grp))) 20);
        [now subst|lia].
    - assert (Hno : forall r, In r (snd grp) -> has_identity s r = false).
      { intros r Hr. destruct (has_identity s r) eqn:Eh; [|reflexivity].
        apply has_identity_same_key in Eh. unfold same_key in Eh.
        apply String.eqb_eq in Eh. rewrite Forall_forall in Hk.
        rewrite (Hk r Hr) in Eh. contradiction. }
      rewrite (filter_none _ (snd grp) Hno).
      apply filter_none. intros r Hr. apply Hno.
      destruct Hg as [_ Hd]. eapply SamplerExtras.drawn_from_In; eauto. }
  rewrite (Eq _ _ Hs); [reflexivity|auto].
Qed.

Lemma low_freq_type_below_floor_is_exhaustive_witness :
  take_sample first_rows sheet_the_cat = Ok sample_the_cat /\
  (List.length (filter (same_key "cat") (data_rows sheet_the_cat)) < 20)%nat
  /\ 0 < occurrences "cat" sheet_the_cat /\
  Permutation
    (filter (has_identity "cat")
       (data_rows
          (out_lf_sheet (process_sheet sheet_the_cat sample_the_cat))))
    (filter (has_identity "cat") (data_rows sheet_the_cat)).
Proof.
  assert (H1 : take_sample first_rows sheet_the_cat = Ok sample_the_cat)
    by (vm_compute; reflexivity).
  assert (H2 : (List.length (filter (same_key "cat")
                               (data_rows sheet_the_cat)) < 20)%nat)
    by (vm_compute; lia).
  assert (H3 : 0 < occurrences "cat" sheet_the_cat)
    by (vm_compute; reflexivity).
  split; [exact H1|]. split; [exact H2|]. split; [exact H3|].
  exact (proj2 (low_freq_type_below_floor_is_exhaustive
                  first_rows sheet_the_cat sample_the_cat "cat" H1 H2 H3)).
Defined.

End PipelineExtras.

(* ================================================================== *)
(** * Further properties of the statistics *)
(* ================================================================== *)

Module SignificanceExtras.
Import Py Significance Inputs SignificanceProofs.
Local Open Scope R_scope.

(** ** The log ratio *)

Lemma log2_zero_iff (x : R) : 0 < x -> (log2 x = 0 <-> x = 1).
Proof.
  intros Hx. pose proof ln_2_pos as H2. unfold log2. split.
  - intros H. apply ln_inv; [exact Hx|lra|]. rewrite ln_1.
    apply (Rmult_eq_reg_r (/ ln 2)); [|apply Rinv_neq_0_compat; lra].
    unfold Rdiv in H. lra.
  - intros ->. rewrite ln_1. field. lra.
Qed.

Lemma ratio_gt_1 (x y : R) : 0 < y -> (1 < x / y <-> y < x).
Proof.
  intros Hy. split; intros H.
  - apply (Rmult_lt_compat_r y) in H; [|exact Hy].
    unfold Rdiv in H. rewrite Rmult_assoc, Rinv_l in H by lra. lra.
  - apply (Rmult_lt_reg_r y); [exact Hy|].
    unfold Rdiv. rewrite Rmult_assoc, Rinv_l by lra. lra.
Qed.

Lemma log2_ratio_signs (x y : R) :
  0 < x -> 0 < y ->
  (0 < log2 (x / y) <-> y < x) /\
  (log2 (x / y) < 0 <-> x < y) /\
  (log2 (x / y) = 0 <-> x = y).
Proof.
  intros Hx Hy.
  assert (Hq : 0 < x / y) by now apply Rdiv_lt_0_compat.
  assert (Hlt : x < y -> x / y < 1).
  { intros H. apply (Rmult_lt_reg_r y); [exact Hy|].
    unfold Rdiv. rewrite Rmult_assoc, Rinv_l by lra. lra. }
  assert (Heq : x = y -> log2 (x / y) = 0).
  { intros ->. apply (log2_zero_iff _ Hq). unfold Rdiv. apply Rinv_r. lra. }
  assert (Hp : y < x -> 0 < log2 (x / y)).
  { intros H. apply log2_pos. now apply ratio_gt_1. }
  assert (Hn : x < y -> log2 (x / y) < 0).
  { intros H. apply log2_neg; [exact Hq|now apply Hlt]. }
  repeat split; try assumption; intros H.
  - destruct (Rtotal_order x y) as [L|[L|L]];
      [specialize (Hn L)|rewrite (Heq L) in H|]; lra.
  - destruct (Rtotal_order x y) as [L|[L|L]];
      [|rewrite (Heq L) in H|specialize (Hp L)]; lra.
  - destruct (Rtotal_order x y) as [L|[L|L]];
      [specialize (Hn L)|exact L|specialize (Hp L)]; lra.
Qed.

Lemma log_ratio_positive (s l floor : R) :
  0 < s -> 0 < l -> log_ratio_log2 s l floor = Ok (log2 (s / l)).
Proof.
  intros Hs Hl. unfold log_ratio_log2. rewrite !Rltb_true by assumption.
  simpl. rewrite py_div_ok by lra. simpl.
  apply math_log2_ok. now apply Rdiv_lt_0_compat.
Qed.

Lemma log_ratio_one_sided (s l : R) :
  0 < s -> l <= 0 ->
  log_ratio_log2 s l zero_floor = Ok (log2 (s / zero_floor)) /\
  log_ratio_log2 l s zero_floor = Ok (- log2 (s / zero_floor)).
Proof.
  intros Hs Hl. pose proof zero_floor_pos as Hf.
  assert (Hq : 0 < s / zero_floor) by now apply Rdiv_lt_0_compat.
  unfold log_ratio_log2.
  rewrite (Rltb_true 0 s), (Rltb_false 0 l), (Rleb_true l 0),
    (Rleb_false s 0) by assumption.
  simpl. rewrite !py_div_ok by lra. simpl.
  rewrite !math_log2_ok by exact Hq. simpl. split; reflexivity.
Qed.

(** X10: With the floor 1e-5 and a frequency that is not positive on one
    side or on both, exchanging the two corpora negates the effect size,
    and both calls return: the code computes the same logarithm and
    negates it.  With two positive frequencies, whenever both calls
    return, the two results have opposite signs and are 0 together. *)
Theorem log_ratio_antisymmetric (ssc_rf lec_rf : R) :
  (ssc_rf <= 0 \/ lec_rf <= 0 ->
   exists v,
     log_ratio_log2 ssc_rf lec_rf zero_floor = Ok v /\
     log_ratio_log2 lec_rf ssc_rf zero_floor = Ok (- v)) /\
  (forall v w,
      0 < ssc_rf -> 0 < lec_rf ->
      log_ratio_log2 ssc_rf lec_rf zero_floor = Ok v ->
      log_ratio_log2 lec_rf ssc_rf zero_floor = Ok w ->
      (0 < v <-> w < 0) /\ (v < 0 <-> 0 < w) /\ (v = 0 <-> w = 0)).
Proof.
  split.
  - intros Hneg.
    destruct (Rlt_le_dec 0 ssc_rf) as [Hs|Hs];
      destruct (Rlt_le_dec 0 lec_rf) as [Hl|Hl].
    + exfalso. lra.
    + destruct (log_ratio_one_sided ssc_rf lec_rf Hs Hl) as [E1 E2].
      eexists. split; [exact E1|exact E2].
    + destruct (log_ratio_one_sided lec_rf ssc_rf Hl Hs) as [E1 E2].
      eexists. split; [exact E2|]. rewrite E1. f_equal. lra.
    + unfold log_ratio_log2.
      rewrite (Rltb_false 0 lec_rf), (Rltb_false 0 ssc_rf) by assumption.
      simpl. rewrite !andb_false_r. exists 0. split; [reflexivity|].
      f_equal. lra.
  - intros v w Hs Hl Ev Ew.
    rewrite (log_ratio_positive _ _ _ Hs Hl) in Ev.
    rewrite (log_ratio_positive _ _ _ Hl Hs) in Ew.
    injection Ev as <-. injection Ew as <-.
    destruct (log2_ratio_signs ssc_rf lec_rf Hs Hl) as [P [N Z]].
    destruct (log2_ratio_signs lec_rf ssc_rf Hl Hs) as [P' [N' Z']].
    rewrite P, N, Z, P', N', Z'.
    repeat split; intros H; try exact H; symmetry; exact H.
Qed.

Lemma log_ratio_antisymmetric_witness :
  exists v,
    log_ratio_log2 (5 / 2) 0 zero_floor = Ok v /\
    log_ratio_log2 0 (5 / 2) zero_floor = Ok (- v).
Proof.
  apply (proj1 (log_ratio_antisymmetric (5 / 2) 0)). right. lra.
Defined.

(** X11: With both frequencies positive, a returned effect size tells by
    its sign the corpus with the higher frequency: it is positive exactly
    when SSC is higher, negative exactly when LEC is higher, zero exactly
    when they are equal. *)
Theorem log_ratio_sign (ssc_rf lec_rf floor v : R) :
  0 < ssc_rf -> 0 < lec_rf ->
  log_ratio_log2 ssc_rf lec_rf floor = Ok v ->
  (0 < v <-> lec_rf < ssc_rf) /\
  (v < 0 <-> ssc_rf < lec_rf) /\
  (v = 0 <-> ssc_rf = lec_rf).
Proof.
  intros Hs Hl E. rewrite (log_ratio_positive _ _ _ Hs Hl) in E.
  injection E as <-. now apply log2_ratio_signs.
Qed.

Lemma log_ratio_sign_witness :
  0 < 5 / 2 /\ 0 < 4 / 5 /\
  log_ratio_log2 (5 / 2) (4 / 5) zero_floor
  = Ok (log2 (5 / 2 / (4 / 5))) /\
  0 < log2 (5 / 2 / (4 / 5)).
Proof.
  assert (Hs : 0 < 5 / 2) by lra.
  assert (Hl : 0 < 4 / 5) by lra.
  pose proof (log_ratio_positive (5 / 2) (4 / 5) zero_floor Hs Hl) as E.
  split; [exact Hs|]. split; [exact Hl|]. split; [exact E|].
  destruct (log_ratio_sign (5 / 2) (4 / 5) zero_floor _ Hs Hl E)
    as [Hpos _].
  apply Hpos. lra.
Defined.


(** ** The G2 statistic *)










(** ** Corpus sizes *)



End SignificanceExtras.

(* ================================================================== *)
(** * Properties of the workbook run, the reports and the directory *)
(* ================================================================== *)

Module WorkbookExtras.
Import Py PyMore Estimates Workbook Inputs Scenarios.

(** ** The dictionary of results *)

Lemma set_item_In (k : string) (v : value) (d : results) :
  In (k, v) (set_item k v d).
Proof.
  induction d as [|[k' v'] rest IH]; simpl; [now left|].
  destruct (String.eqb_spec k' k) as [->|E]; [now left|now right].
Qed.

Lemma set_item_keeps (k k' : string) (v v' : value) (d : results) :
  k <> k' -> In (k, v) d -> In (k, v) (set_item k' v' d).
Proof.
  intros Hk. induction d as [|[k0 v0] rest IH]; simpl; [tauto|].
  intros [E|Hin].
  - injection E as -> ->.
    destruct (String.eqb_spec k k'); [contradiction|now left].
  - destruct (k0 =? k')%string; right; [exact Hin|now apply IH].
Qed.

(** ** The reports *)

Lemma tabular_loop_raises (d : results) :
  has_reported_number d ->
  forall st, tabular_loop st d = Throw AttributeError.
Proof.
  induction d as [|[k v] rest IH]; intros [k0 [q [Hin Hr]]] st.
  - destruct Hin.
  - cbn [tabular_loop]. unfold tabular_step. destruct st as [table t].
    destruct (is_reported k) eqn:Ek.
    + destruct v as [q'|sd]; [reflexivity|].
      cbn [sheet_row rbind]. apply IH.
      destruct Hin as [E|Hin]; [discriminate E|].
      now exists k0, q.
    + cbn [rbind]. apply IH.
      destruct Hin as [E|Hin]; [|now exists k0, q].
      injection E as -> ->. congruence.
Qed.

Lemma consolidated_loop_raises (d : results) :
  has_reported_number d ->
  forall table, consolidated_loop table d = Throw AttributeError.
Proof.
  induction d as [|[k v] rest IH]; intros [k0 [q [Hin Hr]]] table.
  - destruct Hin.
  - cbn [consolidated_loop].
    destruct (is_reported k) eqn:Ek.
    + destruct v as [q'|sd]; [reflexivity|].
      cbn [sheet_row rbind]. apply IH.
      destruct Hin as [E|Hin]; [discriminate E|].
      now exists k0, q.
    + apply IH.
      destruct Hin as [E|Hin]; [|now exists k0, q].
      injection E as -> ->. congruence.
Qed.

Lemma process_workbook_results (wb wb' : workbook) (data : results) :
  process_workbook wb = Return (data, wb') ->
  exists results1 hf final,
    data = set_item "final_estimate_total" (VNum final)
             (set_item "hf_estimated_metaphors_total" (VNum hf) results1).
Proof.
  unfold process_workbook.
  destruct (process_regulars _ _) as [[wb1 results1]|e]; [|discriminate].
  cbn [rbind].
  destruct (get_item "extra_metaphors" results1) as [[q|sd]|];
    cbn [rbind]; try discriminate; intros H; injection H as <- _; eauto.
Qed.

(** X16: Both reports fail on the results of any workbook: [process_workbook]
    stores its two workbook totals as numbers beside the dictionaries of
    the sheets, and the reports call [.get] on every item but
    'extra_metaphors'. *)
Theorem reports_raise_on_processed_workbook (wb wb' : workbook)
    (data : results) :
  process_workbook wb = Return (data, wb') ->
  tabular_rows data = Throw AttributeError /\
  consolidated_rows data = Throw AttributeError.
Proof.
  intros H. apply process_workbook_results in H.
  destruct H as [results1 [hf [final ->]]].
  assert (N : has_reported_number
                (set_item "final_estimate_total" (VNum final)
                   (set_item "hf_estimated_metaphors_total" (VNum hf)
                      results1))).
  { exists "hf_estimated_metaphors_total"%string, hf. split; [|reflexivity].
    apply set_item_keeps; [discriminate|apply set_item_In]. }
  split.
  - unfold tabular_rows. now rewrite tabular_loop_raises.
  - unfold consolidated_rows. now rewrite consolidated_loop_raises.
Qed.

Lemma reports_raise_on_processed_workbook_witness :
  exists data wb',
    process_workbook book = Return (data, wb') /\
    tabular_rows data = Throw AttributeError.
Proof.
  destruct (process_workbook book) as [[data wb']|e] eqn:E;
    [|vm_compute in E; discriminate E].
  exists data, wb'. split; [reflexivity|].
  exact (proj1 (reports_raise_on_processed_workbook book wb' data E)).
Defined.


(** ** Tests on names *)

Lemma endswith_refl (s : string) : endswith s s = true.
Proof. destruct s; cbn [endswith]; now rewrite String.eqb_refl. Qed.

Lemma endswith_app (s suffix : string) :
  endswith (s ++ suffix) suffix = true.
Proof.
  induction s as [|c s IH]; simpl.
  - apply endswith_refl.
  - rewrite IH. apply orb_true_r.
Qed.

Lemma endswith_cons (c : ascii) (s suffix : string) :
  endswith s suffix = true -> endswith (String c s) suffix = true.
Proof. intros H. cbn [endswith]. rewrite H. apply orb_true_r. Qed.

Lemma endswith_prepend (s1 s2 suffix : string) :
  endswith s2 suffix = true -> endswith (s1 ++ s2) suffix = true.
Proof.
  intros H. induction s1 as [|c s1 IH]; simpl; [exact H|].
  rewrite IH. apply orb_true_r.
Qed.

(** ** Sheets that a run leaves alone *)

Lemma get_sheet_del_other (name other : string) (wb : workbook) :
  name <> other -> get_sheet name (del_sheet other wb) = get_sheet name wb.
Proof.
  intros Hn. induction wb as [|[n ws] rest IH]; simpl; [reflexivity|].
  destruct (String.eqb_spec n other) as [->|E]; simpl.
  - destruct (String.eqb_spec other name); [congruence|reflexivity].
  - now rewrite IH.
Qed.

Lemma get_sheet_set_other (name other : string) (ws' : worksheet)
    (wb : workbook) :
  name <> other ->
  get_sheet name (set_sheet other ws' wb) = get_sheet name wb.
Proof.
  intros Hn. induction wb as [|[n ws] rest IH]; simpl; [reflexivity|].
  destruct (String.eqb_spec n other) as [->|E]; simpl.
  - destruct (String.eqb_spec other name); [congruence|reflexivity].
  - now rewrite IH.
Qed.

Lemma get_sheet_create_other (name other : string) (ws' : worksheet)
    (wb : workbook) :
  name <> other ->
  get_sheet name (create_sheet other ws' wb) = get_sheet name wb.
Proof.
  intros Hn. unfold create_sheet.
  induction wb as [|[n ws] rest IH]; simpl.
  - destruct (String.eqb_spec other name); [congruence|reflexivity].
  - now rewrite IH.
Qed.

Lemma process_regular_keeps (name sheet_name : string)
    (st st' : workbook * results) :
  endswith name "_20%" = false -> endswith name "_lf" = false ->
  process_regular st sheet_name = Return st' ->
  get_sheet name (fst st') = get_sheet name (fst st).
Proof.
  intros H20 Hlf. destruct st as [wb data]. unfold process_regular.
  destruct (contains "coding list" (lower sheet_name)).
  { intros E. now injection E as <-. }
  destruct (get_sheet sheet_name wb) as [sheet|]; [|discriminate].
  assert (N20 : name <> (sheet_name ++ "_20%")%string).
  { intros ->. now rewrite endswith_app in H20. }
  assert (Nlf : name <> (sheet_name ++ "_lf")%string).
  { intros ->. now rewrite endswith_app in Hlf. }
  destruct (if has_sheet (sheet_name ++ "_20%") wb
            then get_sheet (sheet_name ++ "_20%") wb else None)
    as [sample_sheet|].
  - intros E. injection E as <-. cbn [fst].
    rewrite get_sheet_set_other, get_sheet_create_other by assumption.
    destruct (has_sheet (sheet_name ++ "_lf") wb); [|reflexivity].
    now apply get_sheet_del_other.
  - intros E. now injection E as <-.
Qed.

Lemma process_regulars_keeps (name : string) (names : list string) :
  endswith name "_20%" = false -> endswith name "_lf" = false ->
  forall st st',
    process_regulars st names = Return st' ->
    get_sheet name (fst st') = get_sheet name (fst st).
Proof.
  intros H20 Hlf. induction names as [|n names IH]; intros st st'; simpl.
  - intros E. now injection E as <-.
  - destruct (process_regular st n) as [st1|e] eqn:E1; [|discriminate].
    cbn [rbind]. intros E.
    rewrite (IH _ _ E). now apply (process_regular_keeps name n st st1).
Qed.

(** X17: A run changes no sheet but those whose name ends in _20% or _lf: the
    full sheets, the extra sheet and the coding lists are saved as they
    were read. *)
Theorem run_keeps_other_sheets (wb wb' : workbook) (data : results)
    (name : string) :
  process_workbook wb = Return (data, wb') ->
  endswith name "_20%" = false -> endswith name "_lf" = false ->
  get_sheet name wb' = get_sheet name wb.
Proof.
  unfold process_workbook. intros H H20 Hlf.
  destruct (process_regulars _ _) as [[wb1 results1]|e] eqn:E;
    [|discriminate].
  cbn [rbind] in H.
  assert (Hwb : wb' = wb1).
  { destruct (get_item "extra_metaphors" results1) as [[q|sd]|];
      cbn [rbind] in H; try discriminate; now injection H as _ <-. }
  subst wb'.
  apply (process_regulars_keeps name _ H20 Hlf _ _ E).
Qed.

Lemma run_keeps_other_sheets_witness :
  exists data wb',
    process_workbook book = Return (data, wb') /\
    endswith "S7.1+" "_20%" = false /\ endswith "S7.1+" "_lf" = false /\
    get_sheet "S7.1+" wb' = get_sheet "S7.1+" book.
Proof.
  destruct (process_workbook book) as [[data wb']|e] eqn:E;
    [|vm_compute in E; discriminate E].
  assert (H1 : endswith "S7.1+" "_20%" = false) by reflexivity.
  assert (H2 : endswith "S7.1+" "_lf" = false) by reflexivity.
  exists data, wb'. split; [reflexivity|]. split; [exact H1|].
  split; [exact H2|].
  exact (run_keeps_other_sheets book wb' data "S7.1+" E H1 H2).
Defined.

(** ** The files of a directory *)

Lemma endswith_tail (c : ascii) (s suffix : string) :
  endswith (String c s) suffix = true ->
  String c s <> suffix -> endswith s suffix = true.
Proof.
  cbn [endswith]. intros H Hn. apply orb_true_iff in H.
  destruct H as [H|H]; [|exact H]. apply String.eqb_eq in H. contradiction.
Qed.

Lemma prefix_xlsx (s : string) :
  prefix ".xlsx" s = true -> exists rest, s = (".xlsx" ++ rest)%string.
Proof.
  intros H.
  repeat (destruct s as [|? s]; [discriminate H|];
          cbn [prefix] in H;
          match type of H with
          | (if ascii_dec ?a ?b then _ else _) = true =>
              destruct (ascii_dec a b) as [<-|]; [|discriminate H]
          end).
  now exists s.
Qed.

Lemma replace_from_xlsx (s : string) :
  forall skip,
    dotless skip s ->
    endswith s ".xlsx" = true ->
    endswith (replace_from ".xlsx" "_processed.xlsx" skip s)
      "_processed.xlsx" = true.
Proof.
  induction s as [|c s IH]; intros skip Hd He; [discriminate He|].
  destruct skip as [|k].
  - cbn [replace_from].
    destruct (prefix ".xlsx" (String c s)) eqn:Ep.
    + (* an occurrence starts here *)
      destruct (String.eqb_spec (String c s) ".xlsx") as [E|E].
      * injection E as -> ->. reflexivity.
      * apply endswith_tail in He; [|exact E].
        apply endswith_prepend. apply IH; [|exact He].
        apply prefix_xlsx in Ep. destruct Ep as [rest Er].
        injection Er as _ ->. simpl. repeat split; discriminate.
    + apply endswith_cons. apply IH; [exact I|].
      apply endswith_tail in He; [exact He|].
      intros E. rewrite E in Ep. discriminate.
  - cbn [replace_from]. destruct Hd as [Hc Hd].
    apply IH; [exact Hd|].
    apply endswith_tail in He; [exact He|].
    intros E. injection E as E _. now apply Hc.
Qed.

(** X18: The path a processed workbook is saved to, for an input file [file]
    of the directory [root], ends in _processed.xlsx, and [process_directory]
    takes no file with this ending: a second run over the directory does
    not take the output of the first for an input. *)
Theorem output_is_not_an_input (root file : string) :
  is_input_file file = true ->
  endswith (output_path (root ++ file)) "_processed.xlsx" = true /\
  (forall name, endswith name "_processed.xlsx" = true ->
                is_input_file name = false).
Proof.
  unfold is_input_file. intros H. apply andb_true_iff in H.
  destruct H as [H _]. split.
  - apply (replace_from_xlsx (root ++ file) 0); [exact I|].
    now apply endswith_prepend.
  - intros name E. rewrite E. apply andb_false_r.
Qed.

Lemma output_is_not_an_input_witness :
  is_input_file "S7.xlsx" = true /\
  output_path "thesis/S7.xlsx" = "thesis/S7_processed.xlsx"%string /\
  endswith (output_path ("thesis/" ++ "S7.xlsx")) "_processed.xlsx" = true.
Proof.
  assert (H : is_input_file "S7.xlsx" = true) by reflexivity.
  split; [exact H|]. split; [reflexivity|].
  exact (proj1 (output_is_not_an_input "thesis/" "S7.xlsx" H)).
Defined.


(** ** The total of a workbook *)















End WorkbookExtras.

(* ================================================================== *)
(** * Properties of the table of statistics *)
(* ================================================================== *)

Module StatisticsExtras.
Import Py PyMore Significance Statistics Inputs SignificanceProofs.
Local Open Scope R_scope.

(** ** Markers *)

Lemma Rltb_iff (x y : R) : Rltb x y = true <-> x < y.
Proof.
  unfold Rltb. destruct (Rlt_dec x y); split; try tauto; discriminate.
Qed.

Lemma Rltb_false_iff (x y : R) : Rltb x y = false <-> y <= x.
Proof.
  unfold Rltb.
  destruct (Rlt_dec x y); split; intros; try discriminate; try lra;
    reflexivity.
Qed.

Lemma p_to_marker_cases (p : R) :
  (p_to_marker p = "****"%string <-> p < 1 / 10000) /\
  (p_to_marker p = "***"%string <-> 1 / 10000 <= p < 1 / 1000) /\
  (p_to_marker p = "*"%string <-> 1 / 1000 <= p < 5 / 100) /\
  (p_to_marker p = "ns"%string <-> 5 / 100 <= p) /\
  p_to_marker p <> "**"%string.
Proof.
  unfold p_to_marker.
  destruct (Rltb p (1 / 10000)) eqn:E1;
    [apply Rltb_iff in E1|apply Rltb_false_iff in E1].
  { repeat split; intros; try discriminate; try lra. }
  destruct (Rltb p (1 / 1000)) eqn:E2;
    [apply Rltb_iff in E2|apply Rltb_false_iff in E2].
  { repeat split; intros; try discriminate; try lra. }
  destruct (Rltb p (5 / 100)) eqn:E3;
    [apply Rltb_iff in E3|apply Rltb_false_iff in E3].
  { repeat split; intros; try discriminate; try lra. }
  repeat split; intros; try discriminate; try lra.
Qed.

(** X20: Every p-value falls in exactly one band: four stars below 0.0001,
    three from there to 0.001, one from there to 0.05, and ns from 0.05
    on.  No value gets two stars. *)
Theorem marker_bands (p : R) :
  (p_to_marker p = "****"%string <-> p < 1 / 10000) /\
  (p_to_marker p = "***"%string <-> 1 / 10000 <= p < 1 / 1000) /\
  (p_to_marker p = "*"%string <-> 1 / 1000 <= p < 5 / 100) /\
  (p_to_marker p = "ns"%string <-> 5 / 100 <= p) /\
  p_to_marker p <> "**"%string.
Proof. apply p_to_marker_cases. Qed.

Section Libraries.

Variable chi2_sf : R -> R.
Variable format_1f : R -> string.
Variable format_4f : R -> string.
Variable round_2 : R -> R.

(** ** One row *)

(** In the real-number reading the quotient of two positive numbers is
    positive, so the logarithm is always taken of a positive number. *)
Lemma log_ratio_never_raises (s l floor : R) :
  0 < floor -> exists v, log_ratio_log2 s l floor = Ok v.
Proof.
  intros Hf. unfold log_ratio_log2.
  destruct (Rlt_le_dec 0 s) as [Hs|Hs]; destruct (Rlt_le_dec 0 l) as [Hl|Hl].
  - rewrite !Rltb_true by assumption. simpl.
    rewrite py_div_ok by lra. simpl.
    rewrite math_log2_ok by now apply Rdiv_lt_0_compat. eauto.
  - rewrite (Rltb_true 0 s), (Rltb_false 0 l), (Rleb_true l 0)
      by assumption.
    simpl. rewrite py_div_ok by lra. simpl.
    rewrite math_log2_ok by now apply Rdiv_lt_0_compat. eauto.
  - rewrite (Rltb_true 0 l), (Rltb_false 0 s), (Rleb_true s 0)
      by assumption.
    simpl. rewrite py_div_ok by lra. simpl.
    rewrite math_log2_ok by now apply Rdiv_lt_0_compat. simpl. eauto.
  - rewrite (Rltb_false 0 l), (Rltb_false 0 s) by assumption.
    simpl. rewrite !andb_false_r. eauto.
Qed.

Lemma row_stats_ok (ssc_words lec_words : R) (label : string)
    (interp : R -> string) (row : group_row) :
  exists d,
    row_stats chi2_sf ssc_words lec_words label interp row = Ok d /\
    st_Vehicle_group d = label /\ sound d.
Proof.
  unfold row_stats.
  destruct (g2_never_raises (Q2R (SSC_Raw row)) (Q2R (LEC_Raw row))
              ssc_words lec_words) as [g2 ->].
  cbn [bind].
  destruct (log_ratio_never_raises (Q2R (SSC_RF row)) (Q2R (LEC_RF row))
              (1 / 100000)) as [lr ->]; [lra|].
  cbn [bind]. eexists. split; [reflexivity|]. split; [reflexivity|].
  unfold sound. cbn. split; [apply Rmin_r|]. split; reflexivity.
Qed.

Lemma group_loop_ok (ssc_words lec_words : R) (df : list group_row) :
  exists ds,
    group_loop chi2_sf format_1f ssc_words lec_words df = Ok ds /\
    map st_Vehicle_group ds =
      map Vehicle_group (filter (fun r => negb (is_totals r)) df) /\
    Forall sound ds.
Proof.
  induction df as [|row df [ds [E [Hl Hs]]]]; cbn [group_loop].
  - exists []. repeat split. constructor.
  - cbn [filter]. destruct (is_totals row); cbn [negb].
    + exists ds. now repeat split.
    + destruct (row_stats_ok ssc_words lec_words (Vehicle_group row)
                  (interpretation format_1f) row) as [d [Ed [Hd Hsd]]].
      rewrite Ed, E. cbn [bind]. exists (d :: ds).
      split; [reflexivity|]. split; [|now constructor].
      cbn [map]. now rewrite Hd, Hl.
Qed.

Lemma totals_stats_ok (ssc_words lec_words : R) (df : list group_row) :
  exists ds,
    totals_stats chi2_sf format_1f ssc_words lec_words df = Ok ds /\
    map st_Vehicle_group ds =
      (if existsb is_totals df then ["TOTALS"%string] else []) /\
    Forall sound ds.
Proof.
  unfold totals_stats.
  assert (Hex : existsb is_totals df
                = match filter is_totals df with [] => false | _ => true end).
  { induction df as [|r df IH]; [reflexivity|]. simpl.
    destruct (is_totals r); [reflexivity|exact IH]. }
  rewrite Hex. destruct (filter is_totals df) as [|t rest].
  - exists []. repeat split. constructor.
  - destruct (row_stats_ok ssc_words lec_words "TOTALS"
                (interpretation_total format_1f) t) as [d [Ed [Hd Hsd]]].
    rewrite Ed. cbn [bind]. exists [d]. split; [reflexivity|].
    split; [cbn [map]; now rewrite Hd|]. constructor; [exact Hsd|constructor].
Qed.

Lemma calculate_statistics_unfold (df : list group_row)
    (ssc_words lec_words : option Q) (sizes : Q * Q) :
  corpus_sizes df ssc_words lec_words = Ok sizes ->
  exists ds,
    calculate_statistics chi2_sf format_1f format_4f round_2
      df ssc_words lec_words =
    match ds with
    | [] => Throw (KeyError "p_value")
    | _ => Return (map (finish format_4f round_2) ds)
    end /\
    map st_Vehicle_group ds =
      map Vehicle_group (filter (fun r => negb (is_totals r)) df)
      ++ (if existsb is_totals df then ["TOTALS"%string] else []) /\
    Forall sound ds.
Proof.
  intros Hs. unfold calculate_statistics. rewrite Hs. cbn [lift rbind].
  destruct (group_loop_ok (Q2R (fst sizes)) (Q2R (snd sizes)) df)
    as [gs [Eg [Lg Sg]]].
  destruct (totals_stats_ok (Q2R (fst sizes)) (Q2R (snd sizes)) df)
    as [ts [Et [Lt St]]].
  rewrite Eg, Et. cbn [lift rbind]. exists (gs ++ ts).
  split; [now destruct (gs ++ ts)|]. split.
  - now rewrite map_app, Lg, Lt.
  - apply Forall_app. now split.
Qed.


(** ** The table *)

Lemma finish_label (d : stat_dict) :
  st_Vehicle_group (columns (finish format_4f round_2 d))
  = st_Vehicle_group d.
Proof. reflexivity. Qed.

(** X21: The returned table has one row per row of the input that is not a
    TOTALS row, in the order of the input and under its label, followed,
    when the input has a TOTALS row in any letter case, by one row
    labelled TOTALS in capitals. *)
Theorem statistics_table_shape (df : list group_row)
    (ssc_words lec_words : option Q) (table : list table_row) :
  calculate_statistics chi2_sf format_1f format_4f round_2
    df ssc_words lec_words = Return table ->
  map (fun r => st_Vehicle_group (columns r)) table =
  map Vehicle_group (filter (fun r => negb (is_totals r)) df)
  ++ (if existsb is_totals df then ["TOTALS"%string] else []).
Proof.
  intros H.
  destruct (corpus_sizes df ssc_words lec_words) as [sizes|e] eqn:Es.
  2:{ unfold calculate_statistics in H. rewrite Es in H. discriminate H. }
  destruct (calculate_statistics_unfold df ssc_words lec_words sizes Es)
    as [ds [E [Hl _]]].
  rewrite E in H. destruct ds as [|d ds]; [discriminate H|].
  injection H as H. subst table. rewrite <- Hl.
  exact (map_map (finish format_4f round_2)
           (fun r => st_Vehicle_group (columns r)) (d :: ds)).
Qed.

(** X22: In every row of the returned table the p-value is at most 0.9999, the
    row is flagged significant exactly when its p-value is below 0.05,
    which is exactly when its marker is not ns, and a row with four stars
    shows its p-value as <0.0001. *)
Theorem statistics_rows_consistent (df : list group_row)
    (ssc_words lec_words : option Q) (table : list table_row) :
  calculate_statistics chi2_sf format_1f format_4f round_2
    df ssc_words lec_words = Return table ->
  Forall
    (fun r =>
       let d := columns r in
       p_value d <= 9999 / 10000 /\
       (Significant d = true <-> p_value d < 5 / 100) /\
       (Significant d = true <-> Sig_Marker d <> "ns"%string) /\
       (Sig_Marker d = "****"%string <->
        p_value_formatted r = "<0.0001"%string
        /\ p_value d < 1 / 10000))
    table.
Proof.
  intros H.
  destruct (corpus_sizes df ssc_words lec_words) as [sizes|e] eqn:Es.
  2:{ unfold calculate_statistics in H. rewrite Es in H. discriminate H. }
  destruct (calculate_statistics_unfold df ssc_words lec_words sizes Es)
    as [ds [E [_ Hs]]].
  rewrite E in H. destruct ds as [|d0 ds0]; [discriminate H|].
  injection H as H. subst table.
  refine (proj2 (Forall_map (finish format_4f round_2) _ (d0 :: ds0)) _).
  eapply Forall_impl; [|exact Hs].
  intros d [Hp [Hsig Hm]]. cbn.
  destruct (p_to_marker_cases (p_value d)) as [M4 [_ [_ [Mns _]]]].
  split; [exact Hp|]. split; [rewrite Hsig; apply Rltb_iff|].
  split.
  - rewrite Hsig, Hm, Rltb_iff, Mns. split; lra.
  - rewrite Hm, M4. split.
    + intros Hlt. split; [|exact Hlt]. now rewrite (Rltb_true _ _ Hlt).
    + tauto.
Qed.

(** X23: The errors of the corpus sizes are passed on as they are.  An input
    without any row, which needs supplied sizes to come this far, fails
    on the missing column p_value, and this is the only way to that
    KeyError: when it is raised the input has no row.  A returned table
    has at least one row, and so has the input, whose corpus sizes were
    established. *)
Theorem statistics_outcomes (df : list group_row)
    (ssc_words lec_words : option Q) :
  let result :=
    calculate_statistics chi2_sf format_1f format_4f round_2
      df ssc_words lec_words in
  (forall e,
      corpus_sizes df ssc_words lec_words = Raise e ->
      result = Throw (Lib e)) /\
  (forall sizes,
      corpus_sizes df ssc_words lec_words = Ok sizes -> df = [] ->
      result = Throw (KeyError "p_value")) /\
  (forall key,
      result = Throw (KeyError key) ->
      df = [] /\ key = "p_value"%string) /\
  (forall table,
      result = Return table ->
      table <> [] /\ df <> [] /\
      exists sizes, corpus_sizes df ssc_words lec_words = Ok sizes).
Proof.
  intros result. unfold result. clear result.
  destruct (corpus_sizes df ssc_words lec_words) as [sizes|e] eqn:Es.
  - destruct (calculate_statistics_unfold df ssc_words lec_words sizes Es)
      as [ds [E [Hl _]]].
    rewrite E.
    assert (Hds : df <> [] -> ds <> []).
    { intros Hdf ->. destruct df as [|row df]; [now apply Hdf|].
      cbn [filter existsb map] in Hl.
      destruct (is_totals row); simpl in Hl; [|discriminate Hl].
      symmetry in Hl. apply app_eq_nil in Hl. destruct Hl as [_ Hl].
      discriminate Hl. }
    assert (Hdf : df = [] -> ds = []).
    { intros ->. destruct ds; [reflexivity|discriminate Hl]. }
    repeat split.
    + intros e H. discriminate H.
    + intros _ _ Hnil. now rewrite (Hdf Hnil).
    + destruct ds as [|d ds]; [|discriminate H].
      destruct df as [|row df]; [reflexivity|].
      exfalso. apply Hds; [discriminate|reflexivity].
    + destruct ds as [|d ds]; [|discriminate H]. now injection H as <-.
    + destruct ds as [|d ds]; [discriminate H|].
      injection H as <-. discriminate.
    + intros ->. destruct ds as [|d ds]; [discriminate H|].
      specialize (Hdf eq_refl). discriminate Hdf.
    + now exists sizes.
  - assert (E : calculate_statistics chi2_sf format_1f format_4f round_2
                  df ssc_words lec_words = Throw (Lib e)).
    { unfold calculate_statistics. now rewrite Es. }
    rewrite E. repeat split; try (intros; discriminate).
    intros e' H. now injection H as <-.
Qed.


Lemma calculate_statistics_returns (df : list group_row)
    (ssc_words lec_words : option Q) (sizes : Q * Q) :
  corpus_sizes df ssc_words lec_words = Ok sizes -> df <> [] ->
  exists table,
    calculate_statistics chi2_sf format_1f format_4f round_2
      df ssc_words lec_words = Return table.
Proof.
  intros Es Hne.
  destruct (calculate_statistics_unfold df ssc_words lec_words sizes Es)
    as [ds [E [Hl _]]].
  rewrite E. destruct ds as [|d ds]; [|eauto].
  exfalso. destruct df as [|row df]; [congruence|].
  cbn [filter existsb map] in Hl.
  destruct (is_totals row); simpl in Hl; [|discriminate Hl].
  symmetry in Hl. apply app_eq_nil in Hl. destruct Hl as [_ Hl].
  discriminate Hl.
Qed.

(** ** The interpretation *)

Lemma Q2R_pos (x : Q) : (0 < x)%Q -> 0 < Q2R x.
Proof.
  intros H. apply Qreals.Qlt_Rlt in H.
  replace (Q2R 0) with 0 in H by (unfold Q2R; simpl; lra). exact H.
Qed.

Lemma row_stats_log_ratio (ssc_words lec_words : R) (label : string)
    (interp : R -> string) (row : group_row) (d : stat_dict) :
  (0 < SSC_RF row)%Q -> (0 < LEC_RF row)%Q ->
  row_stats chi2_sf ssc_words lec_words label interp row = Ok d ->
  Interpretation d = interp (log2 (Q2R (SSC_RF row) / Q2R (LEC_RF row))).
Proof.
  intros Hs Hl. apply Q2R_pos in Hs, Hl. unfold row_stats.
  destruct (g2_log_likelihood _ _ _ _) as [g2|e]; [|discriminate].
  cbn [bind].
  assert (E : log_ratio_log2 (Q2R (SSC_RF row)) (Q2R (LEC_RF row))
                (1 / 100000)
              = Ok (log2 (Q2R (SSC_RF row) / Q2R (LEC_RF row)))).
  { unfold log_ratio_log2. rewrite !Rltb_true by assumption. simpl.
    rewrite py_div_ok by lra. simpl.
    apply math_log2_ok. now apply Rdiv_lt_0_compat. }
  rewrite E. cbn [bind]. intros H. injection H as <-. reflexivity.
Qed.

Lemma prefix_empty (s : string) : prefix "" s = true.
Proof. now destruct s. Qed.

(** X24: The interpretation of a row with positive frequencies names the
    corpus with the higher frequency, whatever the significance: a group
    row reads SSC uses... exactly when the SSC frequency is the higher
    one, LEC uses... exactly when the LEC frequency is, and No difference
    exactly when they are equal.  The TOTALS row has no such third case:
    it reads SSC uses... also when the two frequencies are equal. *)
Theorem interpretation_follows_rates (ssc_words lec_words : R)
    (label : string) (row : group_row) :
  (0 < SSC_RF row)%Q -> (0 < LEC_RF row)%Q ->
  (forall d,
      row_stats chi2_sf ssc_words lec_words label
        (interpretation format_1f) row = Ok d ->
      (prefix "SSC uses " (Interpretation d) = true
       <-> (LEC_RF row < SSC_RF row)%Q) /\
      (prefix "LEC uses " (Interpretation d) = true
       <-> (SSC_RF row < LEC_RF row)%Q) /\
      (Interpretation d = "No difference"%string
       <-> (SSC_RF row == LEC_RF row)%Q)) /\
  (forall d,
      row_stats chi2_sf ssc_words lec_words label
        (interpretation_total format_1f) row = Ok d ->
      (prefix "SSC uses " (Interpretation d) = true
       <-> (LEC_RF row <= SSC_RF row)%Q) /\
      (prefix "LEC uses " (Interpretation d) = true
       <-> (SSC_RF row < LEC_RF row)%Q)).
Proof.
  intros Hs Hl.
  pose proof (Q2R_pos _ Hs) as Rs. pose proof (Q2R_pos _ Hl) as Rl.
  destruct (SignificanceExtras.log2_ratio_signs _ _ Rs Rl) as [Sp [Sn Sz]].
  assert (Qlt1 : (LEC_RF row < SSC_RF row)%Q
                 <-> Q2R (LEC_RF row) < Q2R (SSC_RF row))
    by (split; [apply Qreals.Qlt_Rlt|apply Qreals.Rlt_Qlt]).
  assert (Qlt2 : (SSC_RF row < LEC_RF row)%Q
                 <-> Q2R (SSC_RF row) < Q2R (LEC_RF row))
    by (split; [apply Qreals.Qlt_Rlt|apply Qreals.Rlt_Qlt]).
  assert (Qeq1 : (SSC_RF row == LEC_RF row)%Q
                 <-> Q2R (SSC_RF row) = Q2R (LEC_RF row))
    by (split; [apply Qreals.Qeq_eqR|apply Qreals.eqR_Qeq]).
  assert (Qle1 : (LEC_RF row <= SSC_RF row)%Q
                 <-> Q2R (LEC_RF row) <= Q2R (SSC_RF row))
    by (split; [apply Qreals.Qle_Rle|apply Qreals.Rle_Qle]).
  split; intros d Hd;
    rewrite (row_stats_log_ratio _ _ _ _ _ _ Hs Hl Hd);
    set (lr := log2 (Q2R (SSC_RF row) / Q2R (LEC_RF row))) in *.
  - rewrite Qlt1, Qlt2, Qeq1, <- Sp, <- Sn, <- Sz.
    unfold interpretation.
    destruct (Rltb 0 lr) eqn:E1;
      [apply Rltb_iff in E1|apply Rltb_false_iff in E1].
    { repeat split; intros; try reflexivity; try lra;
        try discriminate; try (cbn; apply prefix_empty). }
    destruct (Rltb lr 0) eqn:E2;
      [apply Rltb_iff in E2|apply Rltb_false_iff in E2].
    { repeat split; intros; try reflexivity; try lra;
        try discriminate; try (cbn; apply prefix_empty). }
    repeat split; intros; try reflexivity; try lra; try discriminate;
        try (cbn; apply prefix_empty).
  - rewrite Qle1, Qlt2, <- Sn.
    assert (Sle : Q2R (LEC_RF row) <= Q2R (SSC_RF row) <-> 0 <= lr).
    { split; intros H.
      - destruct H as [H|H]; [apply Sp in H; lra|].
        symmetry in H. apply Sz in H. fold lr in H. lra.
      - destruct H as [H|H]; [apply Sp in H; lra|].
        symmetry in H. apply Sz in H. lra. }
    rewrite Sle. unfold interpretation_total.
    destruct (Rleb 0 lr) eqn:E1.
    + assert (0 <= lr) by (unfold Rleb in E1; destruct (Rle_dec 0 lr);
                           [assumption|discriminate]).
      repeat split; intros; try reflexivity; try lra; try discriminate;
        try (cbn; apply prefix_empty).
    + assert (lr < 0) by (unfold Rleb in E1; destruct (Rle_dec 0 lr);
                          [discriminate|lra]).
      repeat split; intros; try reflexivity; try lra; try discriminate;
        try (cbn; apply prefix_empty).
Qed.

End Libraries.


(** ** Examples *)

Lemma statistics_table_shape_witness :
  exists table,
    calculate_statistics (fun _ => 1) (fun _ => ""%string)
      (fun _ => ""%string) (fun x => x) table_with_totals None None
    = Return table /\
    map (fun r => st_Vehicle_group (columns r)) table
    = ["WAR"; "TOTALS"]%string.
Proof.
  destruct (corpus_sizes table_with_totals None None) as [sizes|e] eqn:Es;
    [|vm_compute in Es; discriminate Es].
  destruct (calculate_statistics_returns (fun _ => 1) (fun _ => ""%string)
              (fun _ => ""%string) (fun x => x)
              table_with_totals None None sizes Es) as [table E];
    [discriminate|].
  exists table. split; [exact E|].
  rewrite (statistics_table_shape _ _ _ _ _ _ _ _ E). reflexivity.
Defined.

Lemma statistics_rows_consistent_witness :
  exists table,
    calculate_statistics (fun _ => 1) (fun _ => ""%string)
      (fun _ => ""%string) (fun x => x) table_with_totals None None
    = Return table /\
    Forall (fun r => p_value (columns r) <= 9999 / 10000) table.
Proof.
  destruct (corpus_sizes table_with_totals None None) as [sizes|e] eqn:Es;
    [|vm_compute in Es; discriminate Es].
  destruct (calculate_statistics_returns (fun _ => 1) (fun _ => ""%string)
              (fun _ => ""%string) (fun x => x)
              table_with_totals None None sizes Es) as [table E];
    [discriminate|].
  exists table. split; [exact E|].
  eapply Forall_impl;
    [|exact (statistics_rows_consistent _ _ _ _ _ _ _ _ E)].
  intros r H. apply H.
Defined.

Lemma interpretation_follows_rates_witness :
  (0 < 3 # 5)%Q /\ (0 < 8 # 25)%Q /\
  exists d,
    row_stats (fun _ => 1) 20000 12500 "WAR"
      (interpretation (fun _ => ""%string))
      (mkRow "WAR" 12 (3 # 5) 4 (8 # 25)) = Ok d /\
    prefix "SSC uses " (Interpretation d) = true.
Proof.
  assert (Hs : (0 < 3 # 5)%Q) by reflexivity.
  assert (Hl : (0 < 8 # 25)%Q) by reflexivity.
  split; [exact Hs|]. split; [exact Hl|].
  destruct (row_stats_ok (fun _ => 1) 20000 12500 "WAR"
              (interpretation (fun _ => ""%string))
              (mkRow "WAR" 12 (3 # 5) 4 (8 # 25))) as [d [E _]].
  exists d. split; [exact E|].
  apply (proj1 (interpretation_follows_rates (fun _ => 1)
                  (fun _ => ""%string) 20000 12500 "WAR"
                  (mkRow "WAR" 12 (3 # 5) 4 (8 # 25)) Hs Hl) d E).
  reflexivity.
Defined.

End StatisticsExtras.
